(** * WeixinWorkflow: the article pipeline of ai-trend-publish

    A shallow embedding of [src/services/weixin-article.workflow.ts] (class
    [WeixinWorkflow]) and of the cron driver that calls it, followed by the
    properties of the run orchestrator: per-item failure isolation, the
    statistics counters, the batch cap, the summarizer fallback and the
    terminal classification.

    Modelling choices.
    - [async]/[await] code is sequential: every call is awaited before the
      next statement runs, so a method is a state transformer that either
      returns a value or throws.  The monad [M] below is state passing with
      exceptions; state written before a [throw] is kept, as in JavaScript.
    - The provider adapters (scraper, summarizer, image generator, publisher,
      balance client, feed request) are not part of the workflow file.  They
      are fields of [Env]: arbitrary functions over an abstract world [W],
      each of which may return or throw.
    - Every adapter call is recorded in [trace] together with its outcome, in
      the order the calls are issued.  The notifier is not part of the
      workflow file either; its calls are entries of the same trace and, as
      its interface promises, never raise.
    - [console.log]/[console.error] lines, the [cli-progress] bar drawing and
      the two [setTimeout] delays have no effect on the state modelled here
      and are left out; the counter [processedCount] that feeds the bar is
      kept. *)

From Stdlib Require Import List String Ascii Bool Arith Lia.
From Stdlib Require Import QArith DecimalString.
Import ListNotations.

Local Open Scope nat_scope.
Local Open Scope string_scope.
Local Open Scope list_scope.

(** ** JavaScript values used by the workflow *)

(** A JS [number] (account balance, score, timestamp). *)
Definition number : Type := Q.

(** A thrown value: an [Error] object, or anything else, which the handlers
    turn into text with [String(error)]. *)
Inductive Thrown : Type :=
| ErrorObj (message : string)
| OtherValue (repr : string).

(** [error instanceof Error ? error.message : String(error)] *)
Definition error_message (error : Thrown) : string :=
  match error with
  | ErrorObj message => message
  | OtherValue repr => repr
  end.

(** The result of running a statement or a call. *)
Inductive Outcome (A : Type) : Type :=
| Ret (a : A)
| Throw (e : Thrown).
Arguments Ret {A} a.
Arguments Throw {A} e.

(** [a || b] on strings that may be [undefined]: [undefined] and the empty
    string are falsy. *)
Definition or_string (a : option string) (b : string) : string :=
  match a with
  | Some EmptyString | None => b
  | Some s => s
  end.

(** [a || b] on an array that may be [undefined]: every array is truthy. *)
Definition or_array {A : Type} (a : option (list A)) (b : list A) : list A :=
  match a with
  | Some l => l
  | None => b
  end.

(** [`${v}`] for a string that may be [undefined]. *)
Definition interpolate (v : option string) : string :=
  match v with
  | Some s => s
  | None => "undefined"
  end.

(** [`${n}`] for a counter. *)
Definition string_of_nat (n : nat) : string :=
  NilEmpty.string_of_uint (Nat.to_uint n).

(** The line feed of the template literals. *)
Definition nl : string := String (ascii_of_nat 10) EmptyString.

(** [arr.splice(start, count)] returns the removed elements. *)
Definition splice {A : Type} (start count : nat) (arr : list A) : list A :=
  firstn count (skipn start arr).

(** ** Data model *)

(** One element of [apiData.data]. *)
Module Candidate.
Record t : Type := mk
  { author : string;
    cover : string;
    id : string;
    mobileUrl : string;
    timestamp : number;
    title : string;
    url : string }.
End Candidate.

Module Metadata.
Record t : Type := mk
  { keywords : option (list string);
    others : list (string * string) }.
End Metadata.

(** [ScrapedContent]; [title], [content] and [metadata.keywords] are read
    with [||] by the fallback path, so they may be [undefined] at run time. *)
Module ScrapedContent.
Record t : Type := mk
  { id : string;
    title : option string;
    content : option string;
    url : string;
    publishDate : string;
    score : option number;
    metadata : Metadata.t }.
End ScrapedContent.

(** What [summarizer.summarize] resolves to. *)
Module Summary.
Record t : Type := mk
  { title : string;
    content : string;
    score : number;
    keywords : list string }.
End Summary.

Module WeixinTemplate.
Record t : Type := mk
  { id : string;
    title : option string;
    content : option string;
    url : string;
    publishDate : string;
    metadata : Metadata.t;
    keywords : option (list string) }.
End WeixinTemplate.

Module PublishResult.
Record t : Type := mk
  { publishId : string;
    status : string }.
End PublishResult.

(** [waitForCompletion] resolves to an object read as
    [res.results?.[0]?.url]. *)
Module ImageTask.
Record result : Type := mkResult { url : option string }.
Record t : Type := mk { results : option (list result) }.
End ImageTask.

(** [getCronSources()]: [sourceConfigs.All.api] is a list of sources. *)
Module Sources.
Record source : Type := mkSource { identifier : string }.
Record group : Type := mkGroup { api : option (list source) }.
Record t : Type := mk { All : option group }.
End Sources.

(** [private stats = { success: 0, failed: 0, contents: 0 }] *)
Module Stats.
Record t : Type := mk
  { success : nat;
    failed : nat;
    contents : nat }.
Definition initial : t := mk 0 0 0.
End Stats.

Inductive Level : Type := Info | Warning | Error | Success.

(** One entry of the trace: a notification, or an adapter call with what it
    returned or threw. *)
Inductive Event : Type :=
| Notify (level : Level) (title body : string)
| Scrape (url : string) (res : Outcome (list ScrapedContent.t))
| Summarize (payload : string) (res : Outcome Summary.t)
| GenerateImage (prompt size : string) (res : Outcome string)
| WaitForCompletion (taskId : string) (res : Outcome ImageTask.t)
| UploadImage (imageUrl : string) (res : Outcome string)
| Render (articles : list WeixinTemplate.t) (res : Outcome string)
| Publish (template : string) (title digest : option string)
    (mediaId : string) (res : Outcome PublishResult.t)
| GetCNYBalance (res : Outcome number)
| GetCronSources (res : Outcome Sources.t)
| AxiosGet (apiUrl : string) (res : Outcome (list Candidate.t))
| Refresh (component : string) (res : Outcome unit).

(** The lookup table [Map<string, ContentScraper>]: [set] replaces the value
    of a key that is present and appends otherwise. *)
Fixpoint map_set {V : Type} (key : string) (v : V) (m : list (string * V))
  : list (string * V) :=
  match m with
  | [] => [(key, v)]
  | (k, v') :: m' =>
      if String.eqb k key then (k, v) :: m' else (k, v') :: map_set key v m'
  end.

Fixpoint map_get {V : Type} (key : string) (m : list (string * V))
  : option V :=
  match m with
  | [] => None
  | (k, v) :: m' => if String.eqb k key then Some v else map_get key m'
  end.

(** The table [Map<number, Workflow>] of the scheduler, with the same [set]
    and [get]. *)
Fixpoint table_set {V : Type} (key : nat) (v : V) (m : list (nat * V))
  : list (nat * V) :=
  match m with
  | [] => [(key, v)]
  | (k, v') :: m' =>
      if Nat.eqb k key then (k, v) :: m' else (k, v') :: table_set key v m'
  end.

Fixpoint table_get {V : Type} (key : nat) (m : list (nat * V)) : option V :=
  match m with
  | [] => None
  | (k, v) :: m' => if Nat.eqb k key then Some v else table_get key m'
  end.

(** [continue] inside the loop body, against falling out of the [try]. *)
Inductive Flow : Type := Normal | Continue.

(** ** The workflow over an abstract world *)

Module Workflow.
Section WithWorld.

Variable W : Type.

(** The state a run works on.  [stats] is the instance field; [publishResults]
    and [processedCount] are the two mutable locals of [process]. *)
Record State : Type := mkState
  { world : W;
    stats : Stats.t;
    trace : list Event;
    publishResults : list PublishResult.t;
    processedCount : nat }.

Definition M (A : Type) : Type := State -> Outcome A * State.

Definition ret {A : Type} (a : A) : M A := fun s => (Ret a, s).

Definition throw {A : Type} (e : Thrown) : M A := fun s => (Throw e, s).

Definition bind {A B : Type} (m : M A) (k : A -> M B) : M B :=
  fun s =>
    match m s with
    | (Ret a, s') => k a s'
    | (Throw e, s') => (Throw e, s')
    end.

(** [try { m } catch (error) { h error }] *)
Definition try_catch {A : Type} (m : M A) (h : Thrown -> M A) : M A :=
  fun s =>
    match m s with
    | (Ret a, s') => (Ret a, s')
    | (Throw e, s') => h e s'
    end.

Declare Scope js_scope.
Delimit Scope js_scope with js.
Notation "x <- m ;; k" := (bind m (fun x => k))
  (at level 61, m at next level, right associativity) : js_scope.
Notation "m ;; k" := (bind m (fun _ => k))
  (at level 61, right associativity) : js_scope.
Local Open Scope js_scope.

(** [for (const x of items) { body x }] *)
Fixpoint for_of {A : Type} (items : list A) (body : A -> M unit) : M unit :=
  match items with
  | [] => ret tt
  | x :: rest => body x ;; for_of rest body
  end.

(** An awaited adapter call: the adapter acts on the world, and the call is
    appended to the trace with its outcome. *)
Definition call {R : Type} (op : W -> Outcome R * W)
    (ev : Outcome R -> Event) : M R :=
  fun s =>
    let (r, w) := op (world s) in
    (r, mkState w (stats s) (trace s ++ [ev r])
          (publishResults s) (processedCount s)).

(** Modelled from the spec: the notifier ([BarkNotifier], utils/bark.notify)
    is not among the sources; section 6 gives
    [info/warning/error/success(title, body) -> void], "must never raise
    (failures are internally absorbed)".  A notification is an entry of the
    trace. *)
Definition notify (level : Level) (title body : string) : M unit :=
  fun s =>
    (Ret tt, mkState (world s) (stats s) (trace s ++ [Notify level title body])
               (publishResults s) (processedCount s)).

Definition update_stats (f : Stats.t -> Stats.t) : M unit :=
  fun s =>
    (Ret tt, mkState (world s) (f (stats s)) (trace s)
               (publishResults s) (processedCount s)).

(** [this.stats.success++] *)
Definition incr_success : M unit :=
  update_stats (fun st =>
    Stats.mk (S (Stats.success st)) (Stats.failed st) (Stats.contents st)).

(** [this.stats.failed++] *)
Definition incr_failed : M unit :=
  update_stats (fun st =>
    Stats.mk (Stats.success st) (S (Stats.failed st)) (Stats.contents st)).

(** [this.stats.contents++] *)
Definition incr_contents : M unit :=
  update_stats (fun st =>
    Stats.mk (Stats.success st) (Stats.failed st) (S (Stats.contents st))).

Definition get_stats : M Stats.t := fun s => (Ret (stats s), s).

(** [const publishResults = []; let processedCount = 0;] *)
Definition init_locals : M unit :=
  fun s => (Ret tt, mkState (world s) (stats s) (trace s) [] 0).

(** [publishResults.push(publishResult)] *)
Definition push_result (r : PublishResult.t) : M unit :=
  fun s =>
    (Ret tt, mkState (world s) (stats s) (trace s)
               (publishResults s ++ [r]) (processedCount s)).

Definition get_results : M (list PublishResult.t) :=
  fun s => (Ret (publishResults s), s).

(** [progress.update(++processedCount)] *)
Definition incr_processedCount : M unit :=
  fun s =>
    (Ret tt, mkState (world s) (stats s) (trace s)
               (publishResults s) (S (processedCount s))).

(** *** The adapters *)

Record ContentScraper : Type := mkScraper
  { scrape : string -> W -> Outcome (list ScrapedContent.t) * W;
    scraper_refresh : W -> Outcome unit * W }.

Record Env : Type := mkEnv
  { fireCrawl : ContentScraper;
    twitter : ContentScraper;
    summarize : string -> W -> Outcome Summary.t * W;
    summarizer_refresh : W -> Outcome unit * W;
    publish : string -> option string -> option string -> string ->
              W -> Outcome PublishResult.t * W;
    uploadImage : string -> W -> Outcome string * W;
    publisher_refresh : W -> Outcome unit * W;
    render : list WeixinTemplate.t -> W -> Outcome string * W;
    generateImage : string -> string -> W -> Outcome string * W;
    waitForCompletion : string -> W -> Outcome ImageTask.t * W;
    imageGenerator_refresh : W -> Outcome unit * W;
    getCNYBalance : W -> Outcome number * W;
    deepSeekClient_refresh : W -> Outcome unit * W;
    notifier_refresh : W -> Outcome unit * W;
    getCronSources : W -> Outcome Sources.t * W;
    axios_get : string -> W -> Outcome (list Candidate.t) * W;
    stringify : ScrapedContent.t -> string }.

Variable env : Env.

(** The constructor's [this.scraper]. *)
Definition scraper : list (string * ContentScraper) :=
  map_set "twitter" (twitter env) (map_set "fireCrawl" (fireCrawl env) []).

(** [this.scraper.get(key)?.refresh()] *)
Definition refresh_scraper (key : string) : M unit :=
  match map_get key scraper with
  | Some sc => call (scraper_refresh sc) (Refresh key)
  | None => ret tt
  end.

Definition refresh : M unit :=
  call (notifier_refresh env) (Refresh "notifier") ;;
  call (summarizer_refresh env) (Refresh "summarizer") ;;
  call (publisher_refresh env) (Refresh "publisher") ;;
  refresh_scraper "fireCrawl" ;;
  refresh_scraper "twitter" ;;
  call (imageGenerator_refresh env) (Refresh "imageGenerator") ;;
  call (deepSeekClient_refresh env) (Refresh "deepSeekClient").

Definition scrapeSource (type : string) (source : Sources.source)
    (sc : ContentScraper) : M (list ScrapedContent.t) :=
  try_catch
    (contents <- call (scrape sc (Sources.identifier source))
                   (Scrape (Sources.identifier source)) ;;
     incr_success ;;
     ret contents)
    (fun error =>
       incr_failed ;;
       let message := error_message error in
       notify Warning (type ++ "抓取失败")
         ("源: " ++ Sources.identifier source ++ nl ++ "错误: " ++ message) ;;
       ret []).

(** The four assignments of the [try] block of [processContent]. *)
Definition apply_summary (content : ScrapedContent.t) (summary : Summary.t)
  : ScrapedContent.t :=
  ScrapedContent.mk
    (ScrapedContent.id content)
    (Some (Summary.title summary))
    (Some (Summary.content summary))
    (ScrapedContent.url content)
    (ScrapedContent.publishDate content)
    (Some (Summary.score summary))
    (Metadata.mk (Some (Summary.keywords summary))
       (Metadata.others (ScrapedContent.metadata content))).

(** The three assignments of the [catch] block of [processContent]. *)
Definition keep_original (content : ScrapedContent.t) : ScrapedContent.t :=
  ScrapedContent.mk
    (ScrapedContent.id content)
    (Some (or_string (ScrapedContent.title content) "无标题"))
    (Some (or_string (ScrapedContent.content content) "内容处理失败"))
    (ScrapedContent.url content)
    (ScrapedContent.publishDate content)
    (ScrapedContent.score content)
    (Metadata.mk
       (Some (or_array
                (Metadata.keywords (ScrapedContent.metadata content)) []))
       (Metadata.others (ScrapedContent.metadata content))).

(** [processContent] mutates [content] in place; here it returns the
    object as it is afterwards. *)
Definition processContent (content : ScrapedContent.t)
  : M ScrapedContent.t :=
  try_catch
    (summary <- call (summarize env (stringify env content))
                  (Summarize (stringify env content)) ;;
     ret (apply_summary content summary))
    (fun error =>
       notify Warning "内容处理失败"
         ("ID: " ++ ScrapedContent.id content ++ nl ++ "保留原始内容") ;;
       ret (keep_original content)).

(** [res.results?.[0]?.url] *)
Definition first_url (res : ImageTask.t) : option string :=
  match ImageTask.results res with
  | Some (r :: _) => ImageTask.url r
  | _ => None
  end.

Definition cover_prompt (title : option string) : string :=
  "帮我生成一个标题封面，标题是：" ++ interpolate title
  ++ " ,封面不需要文字，找最符合标题的图片".

Definition generateAndUploadCover (title : option string) : M string :=
  taskId <- call (generateImage env (cover_prompt title) "1440*768")
              (GenerateImage (cover_prompt title) "1440*768") ;;
  res <- call (waitForCompletion env taskId) (WaitForCompletion taskId) ;;
  match first_url res with
  | None | Some EmptyString => throw (ErrorObj "封面图片生成失败")
  | Some imageUrl =>
      mediaId <- call (uploadImage env imageUrl) (UploadImage imageUrl) ;;
      ret mediaId
  end.

(** *** [process]: the per-item loop (lines 179-245) *)

(** [const article: WeixinTemplate = { ... }] *)
Definition article_of (content : ScrapedContent.t) : WeixinTemplate.t :=
  WeixinTemplate.mk
    (ScrapedContent.id content)
    (ScrapedContent.title content)
    (ScrapedContent.content content)
    (ScrapedContent.url content)
    (ScrapedContent.publishDate content)
    (ScrapedContent.metadata content)
    (Metadata.keywords (ScrapedContent.metadata content)).

(** Steps 3 to 6 of the [try] block (lines 199-233): the article, its
    cover, the template and the publication. *)
Definition render_and_publish (content : ScrapedContent.t) : M Flow :=
  let article := article_of content in
  mediaId <- generateAndUploadCover (WeixinTemplate.title article) ;;
  singleArticleTemplate <- call (render env [article]) (Render [article]) ;;
  publishResult <-
    call (publish env singleArticleTemplate
            (WeixinTemplate.title article) (WeixinTemplate.title article)
            mediaId)
         (Publish singleArticleTemplate
            (WeixinTemplate.title article) (WeixinTemplate.title article)
            mediaId) ;;
  push_result publishResult ;;
  incr_success ;;
  incr_contents ;;
  ret Normal.

(** The [try] block once [scrape] has resolved to [contents]. *)
Definition after_scrape (contents : list ScrapedContent.t) : M Flow :=
  match contents with
  | [] =>
      incr_failed ;;
      incr_processedCount ;;
      ret Continue
  | content :: _ =>
      content <- processContent content ;;
      render_and_publish content
  end.

Definition item_try (fireCrawlScraper : ContentScraper)
    (item : Candidate.t) : M Flow :=
  contents <- call (scrape fireCrawlScraper (Candidate.url item))
                (Scrape (Candidate.url item)) ;;
  after_scrape contents.

Definition item_warning_body (item : Candidate.t) (message : string)
  : string :=
  "URL: " ++ Candidate.url item ++ nl ++ "错误: " ++ message.

Definition item_catch (item : Candidate.t) (error : Thrown) : M Flow :=
  incr_failed ;;
  let message := error_message error in
  notify Warning "内容处理失败" (item_warning_body item message) ;;
  ret Normal.

(** One iteration of [for (const item of apiData.data)]. *)
Definition loop_body (fireCrawlScraper : ContentScraper)
    (item : Candidate.t) : M unit :=
  flow <- try_catch (item_try fireCrawlScraper item) (item_catch item) ;;
  match flow with
  | Continue => ret tt
  | Normal => incr_processedCount
  end.

(** *** [process]: the report (lines 250-292) *)

(** [r.status === "published" || r.status === "draft"] *)
Definition is_published (r : PublishResult.t) : bool :=
  String.eqb (PublishResult.status r) "published"
  || String.eqb (PublishResult.status r) "draft".

Definition successCount (results : list PublishResult.t) : nat :=
  List.length (filter is_published results).

Definition failedCount (results : list PublishResult.t) : nat :=
  List.length results - successCount results.

Definition summary_text (sources : nat) (st : Stats.t)
    (results : list PublishResult.t) : string :=
  "工作流执行完成" ++ nl
  ++ "        - 数据源: " ++ string_of_nat sources ++ " 个" ++ nl
  ++ "        - 成功: " ++ string_of_nat (Stats.success st) ++ " 个" ++ nl
  ++ "        - 失败: " ++ string_of_nat (Stats.failed st) ++ " 个" ++ nl
  ++ "        - 内容: " ++ string_of_nat (Stats.contents st) ++ " 条" ++ nl
  ++ "        - 发布: " ++ string_of_nat (successCount results) ++ " 成功, "
  ++ string_of_nat (failedCount results) ++ " 失败".

(** Lines 267-289: the counts, the summary and the terminal notification. *)
Definition report (sources : nat) : M unit :=
  results <- get_results ;;
  st <- get_stats ;;
  let summary := summary_text sources st results in
  if (0 <? Stats.failed st)%nat || (0 <? failedCount results)%nat
  then notify Warning "工作流完成(部分失败)" summary
  else notify Success "工作流完成" summary.

(** Lines 250-292: what follows the loop. *)
Definition after_loop (sources : nat) : M unit :=
  st <- get_stats ;;
  if (Stats.contents st =? 0)%nat
  then
    let message := "未成功处理任何内容" in
    notify Error "工作流终止" message ;;
    ret tt
  else report sources.

(** *** [process]: the feed (lines 106-152) *)

(** [balance < 1.0] *)
Definition below_one (balance : number) : bool :=
  negb (Qle_bool 1 balance).

(** The sources that pass
    [!sourceConfigs.All || !sourceConfigs.All.api || ...api.length === 0]. *)
Definition configured_api (sourceConfigs : Sources.t)
  : option (list Sources.source) :=
  match Sources.All sourceConfigs with
  | None => None
  | Some all =>
      match Sources.api all with
      | None => None
      | Some [] => None
      | Some api => Some api
      end
  end.

(** From the start notification to [apiData = response.data].  The
    low-balance warning is not awaited in the source; it is recorded at the
    point where it is issued. *)
Definition fetch_feed : M (list Candidate.t) :=
  notify Info "工作流开始" "开始执行内容抓取和处理" ;;
  deepSeekBalance <- call (getCNYBalance env) GetCNYBalance ;;
  (if below_one deepSeekBalance
   then notify Warning "DeepSeek" "余额小于一元"
   else ret tt) ;;
  sourceConfigs <- call (getCronSources env) GetCronSources ;;
  match configured_api sourceConfigs with
  | None | Some [] =>
      throw (ErrorObj "API URL 未配置，请检查 sourceConfigs.All.api")
  | Some (first :: _) =>
      let apiUrl := Sources.identifier first in
      try_catch
        (call (axios_get env apiUrl) (AxiosGet apiUrl))
        (fun error =>
           let message := error_message error in
           notify Error "API 请求失败" message ;;
           throw error)
  end.

(** From [apiData.data.splice(0,5)] to the end of the [try] block. *)
Definition process_data (data : list Candidate.t) : M unit :=
  let data := splice 0 5 data in
  match data with
  | [] =>
      let message := "API 返回数据为空" in
      notify Error "数据源错误" message ;;
      throw (ErrorObj message)
  | _ :: _ =>
      match map_get "fireCrawl" scraper with
      | None => throw (ErrorObj "FireCrawlScraper not found")
      | Some fireCrawlScraper =>
          init_locals ;;
          for_of data (loop_body fireCrawlScraper) ;;
          after_loop (List.length data)
      end
  end.

(** The [catch] block of [process] (lines 293-298). *)
Definition outer_catch (error : Thrown) : M unit :=
  let message := error_message error in
  notify Error "工作流失败" message ;;
  throw error.

Definition process : M unit :=
  try_catch
    (data <- fetch_feed ;;
     process_data data)
    outer_catch.

(** *** The cron callback (scheduler, lines 38-58)

    [initializeWorkflows] builds one [WeixinWorkflow] per weekday, once;
    every tick of that day looks the same instance up and runs
    [refresh] then [process] on it, logging a thrown error. *)
Definition adjustedDay (dayOfWeek : nat) : nat :=
  if (dayOfWeek =? 0)%nat then 7 else dayOfWeek.

Definition cron_tick : M unit :=
  try_catch
    (refresh ;;
     process)
    (fun _ => ret tt).

(** [new WeixinWorkflow()] in a world [w], before its first run. *)
Definition fresh (w : W) : State := mkState w Stats.initial [] [] 0.

(** *** The workflow table (scheduler, lines 8-29 and 38-58)

    What an instance keeps between two ticks is its [stats]; the adapters it
    holds act on the world.  The scheduler is the world, the events so far
    and the table from weekday to instance. *)
Record Scheduler : Type := mkScheduler
  { sched_world : W;
    sched_trace : list Event;
    workflowMap : list (nat * Stats.t) }.

(** [initializeWorkflows]: seven [workflowMap.set(day, new WeixinWorkflow())],
    for the days 1 to 7 in that order. *)
Definition initializeWorkflows (m : list (nat * Stats.t))
  : list (nat * Stats.t) :=
  table_set 7 Stats.initial
    (table_set 6 Stats.initial
       (table_set 5 Stats.initial
          (table_set 4 Stats.initial
             (table_set 3 Stats.initial
                (table_set 2 Stats.initial
                   (table_set 1 Stats.initial m)))))).

(** [startCronJobs] up to [cron.schedule]: the module-level table is empty
    and gets its seven instances. *)
Definition startCronJobs (w : W) : Scheduler :=
  mkScheduler w [] (initializeWorkflows []).

(** The callback of [cron.schedule] on a tick that falls on [dayOfWeek]
    ([new Date().getDay()]).  A tick is taken to finish before the next one
    starts; when the schedule fires is not modelled. *)
Definition cron_callback (dayOfWeek : nat) (sch : Scheduler) : Scheduler :=
  match table_get (adjustedDay dayOfWeek) (workflowMap sch) with
  | Some instance =>
      let (_, s') :=
        cron_tick (mkState (sched_world sch) instance (sched_trace sch) [] 0)
      in
      mkScheduler (world s') (trace s')
        (table_set (adjustedDay dayOfWeek) (stats s') (workflowMap sch))
  | None => sch
  end.

(** The ticks of [days], oldest first. *)
Definition run_ticks (days : list nat) (sch : Scheduler) : Scheduler :=
  fold_left (fun sch day => cron_callback day sch) days sch.

End WithWorld.

Arguments mkState {W} _ _ _ _ _.
Arguments world {W} _.
Arguments stats {W} _.
Arguments trace {W} _.
Arguments publishResults {W} _.
Arguments processedCount {W} _.
Arguments ret {W A} _ _.
Arguments throw {W A} _ _.
Arguments bind {W A B} _ _ _.
Arguments try_catch {W A} _ _ _.
Arguments for_of {W A} _ _ _.
Arguments call {W R} _ _ _.
Arguments notify {W} _ _ _ _.
Arguments update_stats {W} _ _.
Arguments incr_success {W} _.
Arguments incr_failed {W} _.
Arguments incr_contents {W} _.
Arguments get_stats {W} _.
Arguments init_locals {W} _.
Arguments push_result {W} _ _.
Arguments get_results {W} _.
Arguments incr_processedCount {W} _.
Arguments mkScraper {W} _ _.
Arguments scrape {W} _ _ _.
Arguments scraper_refresh {W} _ _.
Arguments fireCrawl {W} _.
Arguments twitter {W} _.
Arguments summarize {W} _ _ _.
Arguments publish {W} _ _ _ _ _ _.
Arguments uploadImage {W} _ _ _.
Arguments render {W} _ _ _.
Arguments generateImage {W} _ _ _ _.
Arguments waitForCompletion {W} _ _ _.
Arguments getCNYBalance {W} _ _.
Arguments getCronSources {W} _ _.
Arguments axios_get {W} _ _ _.
Arguments stringify {W} _ _.
Arguments scraper {W} _.
Arguments refresh {W} _ _.
Arguments scrapeSource {W} _ _ _ _.
Arguments processContent {W} _ _ _.
Arguments generateAndUploadCover {W} _ _ _.
Arguments render_and_publish {W} _ _ _.
Arguments after_scrape {W} _ _ _.
Arguments item_try {W} _ _ _ _.
Arguments item_catch {W} _ _ _.
Arguments loop_body {W} _ _ _ _.
Arguments report {W} _ _.
Arguments after_loop {W} _ _.
Arguments fetch_feed {W} _ _.
Arguments process_data {W} _ _ _.
Arguments outer_catch {W} _ _.
Arguments process {W} _ _.
Arguments cron_tick {W} _ _.
Arguments fresh {W} _.
Arguments mkScheduler {W} _ _ _.
Arguments sched_world {W} _.
Arguments sched_trace {W} _.
Arguments workflowMap {W} _.
Arguments startCronJobs {W} _.
Arguments cron_callback {W} _ _ _.
Arguments run_ticks {W} _ _ _.
Arguments summarizer_refresh {W} _ _.
Arguments publisher_refresh {W} _ _.
Arguments imageGenerator_refresh {W} _ _.
Arguments deepSeekClient_refresh {W} _ _.
Arguments notifier_refresh {W} _ _.

End Workflow.

(** ** Reading a trace *)

Module Trace.

(** The URLs handed to [scrape], in call order. *)
Fixpoint scrape_urls (evs : list Event) : list string :=
  match evs with
  | [] => []
  | Scrape url _ :: evs' => url :: scrape_urls evs'
  | _ :: evs' => scrape_urls evs'
  end.

(** What the [publish] calls that returned resolved to, in call order. *)
Fixpoint publish_returns (evs : list Event) : list PublishResult.t :=
  match evs with
  | [] => []
  | Publish _ _ _ _ (Ret r) :: evs' => r :: publish_returns evs'
  | _ :: evs' => publish_returns evs'
  end.

(** The notifications, in the order they were sent. *)
Fixpoint notifications (evs : list Event) : list (Level * string * string) :=
  match evs with
  | [] => []
  | Notify level title body :: evs' =>
      (level, title, body) :: notifications evs'
  | _ :: evs' => notifications evs'
  end.

(** The first adapter call of each stage of section 4.2: the scrape, the
    summarizer call, and the image request that opens render-and-publish. *)
Definition opens_stage (ev : Event) : bool :=
  match ev with
  | Scrape _ _ | Summarize _ _ | GenerateImage _ _ _ => true
  | _ => false
  end.

Definition stage_invocations (evs : list Event) : nat :=
  List.length (filter opens_stage evs).

Definition is_summarize (ev : Event) : bool :=
  match ev with
  | Summarize _ _ => true
  | _ => false
  end.

Definition is_publish (ev : Event) : bool :=
  match ev with
  | Publish _ _ _ _ _ => true
  | _ => false
  end.

(** In the words of the report's classification: a publish result whose
    status is neither "published" nor "draft". *)
Definition neither_published_nor_draft (r : PublishResult.t) : bool :=
  negb (String.eqb (PublishResult.status r) "published")
  && negb (String.eqb (PublishResult.status r) "draft").

(** The two notifications that close a reported run. *)
Definition is_terminal (ev : Event) : bool :=
  match ev with
  | Notify Success _ _ => true
  | Notify Warning title _ => String.eqb title "工作流完成(部分失败)"
  | _ => false
  end.

(** The error an event hands to the item boundary: a throwing call of the
    scrape, cover, render or publish step, or a completed image task without
    a URL.  A summarizer call hands over none. *)
Definition raised_by (ev : Event) : option Thrown :=
  match ev with
  | Scrape _ (Throw e) => Some e
  | GenerateImage _ _ (Throw e) => Some e
  | WaitForCompletion _ (Throw e) => Some e
  | WaitForCompletion _ (Ret res) =>
      match Workflow.first_url res with
      | None | Some EmptyString => Some (ErrorObj "封面图片生成失败")
      | Some _ => None
      end
  | UploadImage _ (Throw e) => Some e
  | Render _ (Throw e) => Some e
  | Publish _ _ _ _ (Throw e) => Some e
  | _ => None
  end.

(** The components [refresh] was called on, in call order. *)
Fixpoint refreshed (evs : list Event) : list string :=
  match evs with
  | [] => []
  | Refresh component _ :: evs' => component :: refreshed evs'
  | _ :: evs' => refreshed evs'
  end.

(** The order in which [WeixinWorkflow.refresh] awaits its components. *)
Definition refresh_order : list string :=
  ["notifier"; "summarizer"; "publisher"; "fireCrawl"; "twitter";
   "imageGenerator"; "deepSeekClient"]%string.

(** A call that threw, whichever adapter it was made to. *)
Definition threw (ev : Event) : bool :=
  match ev with
  | Scrape _ (Throw _) | Summarize _ (Throw _) | GenerateImage _ _ (Throw _)
  | WaitForCompletion _ (Throw _) | UploadImage _ (Throw _)
  | Render _ (Throw _) | Publish _ _ _ _ (Throw _) | GetCNYBalance (Throw _)
  | GetCronSources (Throw _) | AxiosGet _ (Throw _) | Refresh _ (Throw _) =>
      true
  | _ => false
  end.

Definition is_axios (ev : Event) : bool :=
  match ev with
  | AxiosGet _ _ => true
  | _ => false
  end.

Definition is_upload (ev : Event) : bool :=
  match ev with
  | UploadImage _ _ => true
  | _ => false
  end.

(** The events of one candidate: its scrape first, no other scrape, at most
    one publication. *)
Definition item_segment (item : Candidate.t) (seg : list Event) : Prop :=
  exists res rest,
    seg = Scrape (Candidate.url item) res :: rest
    /\ scrape_urls rest = []
    /\ List.length (publish_returns rest) <= 1.

End Trace.

(** ** A concrete world

    The world is the number of adapter calls made so far.  The scraper
    answers by URL; the summarizer works or fails as a whole. *)

Module Demo.
Import Workflow.

Definition tick {R : Type} (r : Outcome R) : nat -> Outcome R * nat :=
  fun w => (r, S w).

Definition candidate (url : string) : Candidate.t :=
  Candidate.mk "author" "" url "" 0%Q ("about " ++ url) url.

Definition scraped (url : string) : ScrapedContent.t :=
  ScrapedContent.mk ("id:" ++ url) (Some ("raw " ++ url)%string) (Some "raw body")
    url "2025-03-01" None (Metadata.mk None []).

Definition the_scraper : ContentScraper nat :=
  mkScraper
    (fun url =>
       if String.eqb url "https://empty.example" then tick (Ret [])
       else if String.eqb url "https://boom.example"
            then tick (Throw (ErrorObj "timeout"))
            else tick (Ret [scraped url; scraped "https://second.example"]))
    (tick (Ret tt)).

Definition the_summary : Summary.t :=
  Summary.mk "rewritten" "rewritten body" 90%Q ["ai"].

Definition the_sources : Sources.t :=
  Sources.mk
    (Some (Sources.mkGroup (Some [Sources.mkSource "https://feed.example"]))).

Definition env (summarizer_ok : bool) (feed : list Candidate.t) : Env nat :=
  mkEnv nat
    the_scraper the_scraper
    (fun _ => if summarizer_ok then tick (Ret the_summary)
              else tick (Throw (ErrorObj "quota")))
    (tick (Ret tt))
    (fun _ _ _ _ => tick (Ret (PublishResult.mk "p1" "published")))
    (fun _ => tick (Ret "media-1"))
    (tick (Ret tt))
    (fun _ => tick (Ret "<section/>"))
    (fun _ _ => tick (Ret "task-1"))
    (fun _ => tick (Ret (ImageTask.mk
                           (Some [ImageTask.mkResult (Some "https://img/1")]))))
    (tick (Ret tt))
    (tick (Ret 5%Q))
    (tick (Ret tt))
    (tick (Ret tt))
    (tick (Ret the_sources))
    (fun _ => tick (Ret feed))
    ScrapedContent.id.

(** A variant whose summarizer refresh, sources, feed request and image
    task are chosen; the summarizer itself always fails. *)
Definition custom (refresh_ok : bool) (sources : Sources.t)
    (feed : Outcome (list Candidate.t)) (task : ImageTask.t) : Env nat :=
  mkEnv nat
    the_scraper the_scraper
    (fun _ => tick (Throw (ErrorObj "quota")))
    (tick (if refresh_ok then Ret tt else Throw (ErrorObj "expired")))
    (fun _ _ _ _ => tick (Ret (PublishResult.mk "p1" "draft")))
    (fun _ => tick (Ret "media-1"))
    (tick (Ret tt))
    (fun _ => tick (Ret "<section/>"))
    (fun _ _ => tick (Ret "task-1"))
    (fun _ => tick (Ret task))
    (tick (Ret tt))
    (tick (Ret (1 # 2)%Q))
    (tick (Ret tt))
    (tick (Ret tt))
    (tick (Ret sources))
    (fun _ => tick feed)
    ScrapedContent.id.

Definition the_task : ImageTask.t :=
  ImageTask.mk (Some [ImageTask.mkResult (Some "https://img/1")]).

Definition no_url_task : ImageTask.t :=
  ImageTask.mk (Some [ImageTask.mkResult None]).

Definition no_sources : Sources.t :=
  Sources.mk (Some (Sources.mkGroup (Some []))).

Definition good : Candidate.t := candidate "https://a.example".
Definition empty : Candidate.t := candidate "https://empty.example".
Definition boom : Candidate.t := candidate "https://boom.example".

End Demo.

(** ** What a candidate and a batch do to the state *)

Module Effects.
Import Workflow Trace.

Section WithWorld.

Context {W : Type}.

(** Handling one candidate, from state [s] to state [s'], with [seg] the
    events it adds.  Every candidate moves [processedCount] by one and
    exactly one of [success] and [failed] by one. *)
Record item_step (item : Candidate.t) (s s' : State W) (seg : list Event)
  : Prop := mkItemStep
  { step_trace : trace s' = trace s ++ seg;
    step_segment : item_segment item seg;
    step_results :
      publishResults s' = publishResults s ++ publish_returns seg;
    step_success :
      Stats.success (stats s')
      = Stats.success (stats s) + List.length (publish_returns seg);
    step_contents :
      Stats.contents (stats s')
      = Stats.contents (stats s) + List.length (publish_returns seg);
    step_failed :
      Stats.failed (stats s') + List.length (publish_returns seg)
      = S (Stats.failed (stats s));
    step_count : processedCount s' = S (processedCount s);
    step_summarize : List.length (filter is_summarize seg) <= 1;
    step_publish : List.length (filter is_publish seg) <= 1;
    step_terminal : filter is_terminal seg = [] }.

(** Handling a batch: one segment per candidate, in order. *)
Record loop_run (batch : list Candidate.t) (s s' : State W)
    (segs : list (list Event)) : Prop := mkLoopRun
  { run_trace : trace s' = trace s ++ List.concat segs;
    run_segments : Forall2 item_segment batch segs;
    run_results :
      publishResults s' = publishResults s ++ publish_returns (List.concat segs);
    run_success :
      Stats.success (stats s')
      = Stats.success (stats s) + List.length (publish_returns (List.concat segs));
    run_contents :
      Stats.contents (stats s')
      = Stats.contents (stats s)
        + List.length (publish_returns (List.concat segs));
    run_failed :
      Stats.failed (stats s') + List.length (publish_returns (List.concat segs))
      = Stats.failed (stats s) + List.length batch;
    run_count : processedCount s' = processedCount s + List.length batch;
    run_summarize :
      List.length (filter is_summarize (List.concat segs)) <= List.length batch;
    run_publish :
      List.length (filter is_publish (List.concat segs)) <= List.length batch;
    run_terminal : filter is_terminal (List.concat segs) = [] }.

(** The events the [try] block of an item adds to the trace of [s]. *)
Definition item_events (env : Env W) (sc : ContentScraper W)
    (item : Candidate.t) (s : State W) : list Event :=
  skipn (List.length (trace s)) (trace (snd (item_try env sc item s))).

(** Some call of the item's [try] block raised [e] at the item boundary. *)
Definition item_raises (env : Env W) (sc : ContentScraper W)
    (item : Candidate.t) (s : State W) (e : Thrown) : Prop :=
  In (Some e) (map raised_by (item_events env sc item s)).

(** The state at the end of the loop of a run whose feed request resolved
    to [data] in state [s1]. *)
Definition loop_end (env : Env W) (data : list Candidate.t) (s1 : State W)
  : State W :=
  snd (for_of (splice 0 5 data) (loop_body env (fireCrawl env))
         (snd (init_locals s1))).

End WithWorld.
End Effects.

Import Workflow Trace Effects.

(** ** Reading traces: append *)

Lemma scrape_urls_app (a b : list Event) :
  scrape_urls (a ++ b) = scrape_urls a ++ scrape_urls b.
Proof.
  induction a as [|ev a IH]; [reflexivity|].
  destruct ev; cbn; rewrite ?IH; reflexivity.
Qed.

Lemma publish_returns_app (a b : list Event) :
  publish_returns (a ++ b) = publish_returns a ++ publish_returns b.
Proof.
  induction a as [|ev a IH]; [reflexivity|].
  destruct ev as [| | | | | | |? ? ? ? [r|e]| | | |]; cbn; rewrite ?IH;
    reflexivity.
Qed.

Lemma notifications_app (a b : list Event) :
  notifications (a ++ b) = notifications a ++ notifications b.
Proof.
  induction a as [|ev a IH]; [reflexivity|].
  destruct ev; cbn; rewrite ?IH; reflexivity.
Qed.

(** ** One candidate *)

(** Splits on the outcome of the next adapter call: the innermost scrutinee
    that is not itself a [match]. *)
Ltac next_call :=
  match goal with
  | |- context [let (_, _) := ?op in _] =>
      lazymatch op with
      | context [match _ with _ => _ end] => fail
      | _ => destruct op as [[?|?] ?] eqn:?
      end
  | |- context [match first_url ?r with _ => _ end] =>
      destruct (first_url r) as [[|? ?]|] eqn:?
  end.

Ltac run_calls :=
  repeat (cbn [fst snd world stats trace publishResults processedCount];
          next_call).

Ltac simpl_state :=
  cbn [fst snd world stats trace publishResults processedCount
       Stats.success Stats.failed Stats.contents].

(** Closes a leaf of [loop_body]: the segment is read off the trace. *)
Ltac finish_step :=
  simpl_state; rewrite <- ?app_assoc;
  eexists; eexists; split; [reflexivity|];
  constructor; simpl_state;
  [ reflexivity
  | eexists; eexists; split; [reflexivity|]; split; [reflexivity|];
    cbn; lia
  | cbn; rewrite ?app_nil_r; reflexivity
  | cbn; lia | cbn; lia | cbn; lia | reflexivity
  | cbn; lia | cbn; lia | reflexivity ].

Ltac unfold_monad :=
  unfold try_catch, bind, call, notify, throw, ret, push_result,
    incr_success, incr_failed, incr_contents, incr_processedCount,
    init_locals, get_stats, get_results, update_stats.

Ltac unfold_item :=
  unfold loop_body, item_try, item_catch, after_scrape, processContent,
    render_and_publish, generateAndUploadCover;
  unfold_monad.

Lemma loop_body_step {W : Type} (env : Env W) (sc : ContentScraper W)
    (item : Candidate.t) (s : State W) :
  exists s' seg,
    loop_body env sc item s = (Ret tt, s') /\ item_step item s s' seg.
Proof.
  unfold_item.
  destruct (scrape sc (Candidate.url item) (world s)) as [[[|c cs]|e] w1];
    run_calls; finish_step.
Qed.

(** ** The loop *)

Lemma for_of_app {W A : Type} (xs ys : list A) (body : A -> M W unit)
    (s : State W) :
  for_of (xs ++ ys) body s
  = bind (for_of xs body) (fun _ => for_of ys body) s.
Proof.
  revert s; induction xs as [|x xs IH]; intros s; [reflexivity|].
  cbn [for_of app]. unfold bind.
  destruct (body x s) as [[[]|e] s1]; [|reflexivity].
  rewrite IH. reflexivity.
Qed.

Lemma for_of_loop_run {W : Type} (env : Env W) (sc : ContentScraper W)
    (batch : list Candidate.t) (s : State W) :
  exists s' segs,
    for_of batch (loop_body env sc) s = (Ret tt, s')
    /\ loop_run batch s s' segs.
Proof.
  revert s; induction batch as [|item batch IH]; intros s.
  - exists s, []. split; [reflexivity|].
    constructor; cbn; rewrite ?app_nil_r; auto with arith.
  - destruct (loop_body_step env sc item s) as (s1 & seg & E1 & H1).
    destruct (IH s1) as (s2 & segs & E2 & H2).
    exists s2, (seg :: segs). split.
    + cbn [for_of]. unfold bind. rewrite E1. exact E2.
    + destruct H1, H2.
      constructor; cbn [List.concat List.length];
        rewrite ?publish_returns_app, ?filter_app, ?length_app.
      * rewrite run_trace0, step_trace0, app_assoc. reflexivity.
      * constructor; assumption.
      * rewrite run_results0, step_results0, app_assoc. reflexivity.
      * lia.
      * lia.
      * lia.
      * lia.
      * lia.
      * lia.
      * rewrite step_terminal0, run_terminal0. reflexivity.
Qed.

Lemma segments_scrapes (batch : list Candidate.t) (segs : list (list Event)) :
  Forall2 item_segment batch segs ->
  scrape_urls (List.concat segs) = map Candidate.url batch.
Proof.
  induction 1 as [|item seg batch segs (res & rest & -> & Hs & _) _ IH];
    [reflexivity|].
  cbn. rewrite scrape_urls_app, Hs, IH. reflexivity.
Qed.

Lemma segments_publications (batch : list Candidate.t)
    (segs : list (list Event)) :
  Forall2 item_segment batch segs ->
  List.length (publish_returns (List.concat segs)) <= List.length batch.
Proof.
  induction 1 as [|item seg batch segs (res & rest & -> & _ & Hp) _ IH];
    [auto|].
  cbn [List.concat List.length].
  rewrite publish_returns_app, length_app.
  change (publish_returns (Scrape (Candidate.url item) res :: rest))
    with (publish_returns rest).
  lia.
Qed.

Lemma firstn_le_5 {A : Type} (l : list A) : List.length (firstn 5 l) <= 5.
Proof. apply firstn_le_length. Qed.

(** ** The feed *)

Ltac run_feed :=
  repeat (cbn [fst snd world stats trace publishResults processedCount];
          match goal with
          | |- context [if below_one ?b then _ else _] =>
              destruct (below_one b) eqn:?
          | |- context [match configured_api ?c with _ => _ end] =>
              destruct (configured_api c) as [[|? ?]|] eqn:?
          | _ => next_call
          end).

(** [fetch_feed] leaves the counters and the locals alone and runs no
    stage. *)
Lemma fetch_feed_frame {W : Type} (env : Env W) (s : State W) :
  exists evs,
    trace (snd (fetch_feed env s)) = trace s ++ evs
    /\ stats (snd (fetch_feed env s)) = stats s
    /\ publishResults (snd (fetch_feed env s)) = publishResults s
    /\ processedCount (snd (fetch_feed env s)) = processedCount s
    /\ scrape_urls evs = []
    /\ publish_returns evs = []
    /\ stage_invocations evs = 0
    /\ filter is_terminal evs = [].
Proof.
  unfold fetch_feed; unfold_monad.
  run_feed; simpl_state; rewrite <- ?app_assoc;
    (eexists; split; [reflexivity|]; repeat split; reflexivity).
Qed.

(** ** [process] after the feed *)

Lemma process_after_fetch {W : Type} (env : Env W) (s s1 : State W)
    (data : list Candidate.t) :
  fetch_feed env s = (Ret data, s1) ->
  process env s = try_catch (process_data env data) outer_catch s1.
Proof.
  intros H. unfold process, try_catch, bind at 1. rewrite H. reflexivity.
Qed.

Lemma process_fetch_throws {W : Type} (env : Env W) (s s1 : State W)
    (e : Thrown) :
  fetch_feed env s = (Throw e, s1) ->
  process env s
  = (Throw e,
     mkState (world s1) (stats s1)
       (trace s1 ++ [Notify Error "工作流失败" (error_message e)])
       (publishResults s1) (processedCount s1)).
Proof.
  intros H. unfold process, try_catch, bind at 1. rewrite H. reflexivity.
Qed.

Lemma process_empty {W : Type} (env : Env W) (s s1 : State W)
    (data : list Candidate.t) :
  fetch_feed env s = (Ret data, s1) ->
  firstn 5 data = [] ->
  process env s
  = (Throw (ErrorObj "API 返回数据为空"),
     mkState (world s1) (stats s1)
       (trace s1 ++ [Notify Error "数据源错误" "API 返回数据为空";
                     Notify Error "工作流失败" "API 返回数据为空"])
       (publishResults s1) (processedCount s1)).
Proof.
  intros H E. rewrite (process_after_fetch _ _ _ _ H).
  unfold process_data, splice. cbn [skipn]. rewrite E.
  unfold outer_catch; unfold_monad. simpl_state.
  rewrite <- app_assoc. reflexivity.
Qed.

Lemma process_nonempty {W : Type} (env : Env W) (s s1 : State W)
    (data : list Candidate.t) :
  fetch_feed env s = (Ret data, s1) ->
  firstn 5 data <> [] ->
  exists s2 segs,
    for_of (firstn 5 data) (loop_body env (fireCrawl env))
      (mkState (world s1) (stats s1) (trace s1) [] 0) = (Ret tt, s2)
    /\ loop_run (firstn 5 data)
         (mkState (world s1) (stats s1) (trace s1) [] 0) s2 segs
    /\ process env s = after_loop (List.length (firstn 5 data)) s2.
Proof.
  intros H E. rewrite (process_after_fetch _ _ _ _ H).
  destruct (for_of_loop_run env (fireCrawl env) (firstn 5 data)
              (mkState (world s1) (stats s1) (trace s1) [] 0))
    as (s2 & segs & E2 & H2).
  exists s2, segs. split; [exact E2|]. split; [exact H2|].
  unfold process_data, splice. cbn [skipn].
  destruct (firstn 5 data) as [|c batch] eqn:Eb; [congruence|].
  change (map_get "fireCrawl" (scraper env)) with (Some (fireCrawl env)).
  unfold try_catch, bind, init_locals. rewrite E2.
  unfold after_loop, report, outer_catch; unfold_monad. simpl_state.
  destruct (Stats.contents (stats s2) =? 0)%nat; [reflexivity|].
  destruct ((0 <? Stats.failed (stats s2))%nat
            || (0 <? failedCount (publishResults s2))%nat); reflexivity.
Qed.

Lemma after_loop_zero {W : Type} (sources : nat) (s : State W) :
  Stats.contents (stats s) = 0 ->
  after_loop sources s
  = (Ret tt,
     mkState (world s) (stats s)
       (trace s ++ [Notify Error "工作流终止" "未成功处理任何内容"])
       (publishResults s) (processedCount s)).
Proof.
  intros H. unfold after_loop; unfold_monad. simpl_state.
  rewrite H. reflexivity.
Qed.

Lemma after_loop_report {W : Type} (sources : nat) (s : State W) :
  Stats.contents (stats s) <> 0 ->
  after_loop sources s = report sources s.
Proof.
  intros H. unfold after_loop; unfold_monad. simpl_state.
  destruct (Nat.eqb_spec (Stats.contents (stats s)) 0); [contradiction|].
  reflexivity.
Qed.

(** [failedCount] counts the results that are neither published nor draft. *)
Lemma failedCount_filter (results : list PublishResult.t) :
  failedCount results
  = List.length (filter (fun r => negb (is_published r)) results).
Proof.
  unfold failedCount, successCount.
  induction results as [|r results IH]; [reflexivity|].
  cbn [filter List.length]. 
  assert (List.length (filter is_published results) <= List.length results)
    by apply filter_length_le.
  destruct (is_published r); cbn [negb List.length]; lia.
Qed.

(** ** Item-level errors *)

(** When the [try] block of an item throws, it has counted nothing and
    pushed nothing. *)
Lemma item_try_throws {W : Type} (env : Env W) (sc : ContentScraper W)
    (item : Candidate.t) (s s1 : State W) (e : Thrown) :
  item_try env sc item s = (Throw e, s1) ->
  stats s1 = stats s
  /\ publishResults s1 = publishResults s
  /\ processedCount s1 = processedCount s.
Proof.
  unfold_item.
  destruct (scrape sc (Candidate.url item) (world s)) as [[[|c cs]|e0] w1];
    run_calls; simpl_state; intros H; inversion H; subst; clear H;
    simpl_state; repeat split.
Qed.

Lemma skipn_length_app {A : Type} (a b : list A) :
  skipn (List.length a) (a ++ b) = b.
Proof. induction a as [|x a IH]; [reflexivity|exact IH]. Qed.

(** The [try] block of an item throws [e] exactly when one of its calls
    raised [e]. *)
Lemma item_try_raises {W : Type} (env : Env W) (sc : ContentScraper W)
    (item : Candidate.t) (s : State W) (e : Thrown) :
  fst (item_try env sc item s) = Throw e <-> item_raises env sc item s e.
Proof.
  unfold item_raises, item_events.
  assert (H : exists seg,
             trace (snd (item_try env sc item s)) = trace s ++ seg
             /\ (fst (item_try env sc item s) = Throw e
                 <-> In (Some e) (map raised_by seg))).
  { unfold_item.
    destruct (scrape sc (Candidate.url item) (world s)) as [[[|c cs]|e0] w1];
      run_calls; simpl_state; rewrite <- ?app_assoc;
      (eexists; split; [reflexivity|]);
      cbn [app map raised_by In];
      repeat match goal with E : first_url _ = _ |- _ => rewrite E end;
      split; intros; intuition congruence. }
  destruct H as (seg & -> & H). rewrite skipn_length_app. exact H.
Qed.

(** C1 (as amended): when the scrape, the cover generation, the renderer or
    the publisher raises an error [e] while one candidate is processed, the
    error is caught at the item boundary of [process]: [failed] grows by
    one, one warning naming the item URL and the error message is sent,
    [success], [contents] and the publish results stay as they were, and the
    loop goes on with the next candidate and handles all that remain.  A
    summarizer error is not among them: it never reaches the boundary. *)
Theorem C1_item_error_isolated {W : Type} (env : Env W)
    (sc : ContentScraper W) (item : Candidate.t) (rest : list Candidate.t)
    (s : State W) (e : Thrown) :
  item_raises env sc item s e ->
  let s1 := snd (item_try env sc item s) in
  let s2 :=
    mkState (world s1)
      (Stats.mk (Stats.success (stats s)) (S (Stats.failed (stats s)))
         (Stats.contents (stats s)))
      (trace s1
       ++ [Notify Warning "内容处理失败"
             (item_warning_body item (error_message e))])
      (publishResults s) (S (processedCount s)) in
  loop_body env sc item s = (Ret tt, s2)
  /\ for_of (item :: rest) (loop_body env sc) s
     = for_of rest (loop_body env sc) s2
  /\ exists s3,
       for_of rest (loop_body env sc) s2 = (Ret tt, s3)
       /\ processedCount s3 = processedCount s2 + List.length rest.
Proof.
  intros Hr s1 s2. apply item_try_raises in Hr.
  assert (H : item_try env sc item s = (Throw e, s1)).
  { subst s1. destruct (item_try env sc item s) as [r t].
    cbn [fst snd] in *. subst r. reflexivity. }
  destruct (item_try_throws env sc item s s1 e H) as (Hst & Hres & Hcnt).
  assert (Hbody : loop_body env sc item s = (Ret tt, s2)).
  { unfold loop_body, try_catch, bind. rewrite H.
    unfold item_catch; unfold_monad. simpl_state.
    subst s2. rewrite Hst, Hres, Hcnt. reflexivity. }
  split; [exact Hbody|]. split.
  - cbn [for_of]. unfold bind. rewrite Hbody. reflexivity.
  - destruct (for_of_loop_run env sc rest s2) as (s3 & segs & E3 & H3).
    exists s3. split; [exact E3|]. apply (run_count _ _ _ _ H3).
Qed.

Lemma C1_item_error_isolated_witness :
  loop_body (Demo.env true []) Demo.the_scraper Demo.boom (fresh 0)
  = (Ret tt,
     mkState 1 (Stats.mk 0 1 0)
       [Scrape "https://boom.example" (Throw (ErrorObj "timeout"));
        Notify Warning "内容处理失败"
          (item_warning_body Demo.boom "timeout")]
       [] 1).
Proof.
  exact (proj1 (C1_item_error_isolated (Demo.env true []) Demo.the_scraper
                  Demo.boom [Demo.good] (fresh 0) (ErrorObj "timeout")
                  (or_introl eq_refl))).
Defined.

(** C1 (as stated) fails for the summarize stage: with one candidate whose
    summarizer call throws, the error is absorbed inside [processContent];
    [failed] stays at zero, the item counts as a success, and the only
    warning names the content id, not the item URL or the error. *)
Lemma C1_summarizer_error_not_counted :
  let s' := snd (process (Demo.env false [Demo.good]) (fresh 0)) in
  In (Summarize "id:https://a.example" (Throw (ErrorObj "quota"))) (trace s')
  /\ stats s' = Stats.mk 1 0 1
  /\ notifications (trace s')
     = [(Info, "工作流开始", "开始执行内容抓取和处理");
        (Warning, "内容处理失败",
         ("ID: id:https://a.example" ++ nl ++ "保留原始内容")%string);
        (Success, "工作流完成",
         summary_text 1 (Stats.mk 1 0 1)
           [PublishResult.mk "p1" "published"])].
Proof.
  split; [|split; reflexivity].
  vm_compute. do 5 right. left. reflexivity.
Qed.

(** C10: a scrape that resolves to an empty sequence makes the loop count
    the candidate as failed and move on; the only event of the iteration is
    the scrape itself, so no notification is sent for the item. *)
Theorem C10_empty_scrape_is_silent {W : Type} (env : Env W)
    (sc : ContentScraper W) (item : Candidate.t) (s : State W) (w1 : W) :
  scrape sc (Candidate.url item) (world s) = (Ret [], w1) ->
  let s' :=
    mkState w1
      (Stats.mk (Stats.success (stats s)) (S (Stats.failed (stats s)))
         (Stats.contents (stats s)))
      (trace s ++ [Scrape (Candidate.url item) (Ret [])])
      (publishResults s) (S (processedCount s)) in
  loop_body env sc item s = (Ret tt, s')
  /\ notifications (trace s') = notifications (trace s).
Proof.
  intros H s'. split.
  - unfold_item. rewrite H. reflexivity.
  - subst s'. simpl_state. rewrite notifications_app. apply app_nil_r.
Qed.

Lemma C10_empty_scrape_is_silent_witness :
  loop_body (Demo.env true []) Demo.the_scraper Demo.empty (fresh 0)
  = (Ret tt,
     mkState 1 (Stats.mk 0 1 0) [Scrape "https://empty.example" (Ret [])]
       [] 1).
Proof.
  exact (proj1 (C10_empty_scrape_is_silent (Demo.env true [])
                  Demo.the_scraper Demo.empty (fresh 0) 1 eq_refl)).
Defined.

(** ** The summarizer fallback *)



(** When the cover, the renderer and the publisher all answer, an article is
    published: its result is pushed and [success] and [contents] grow. *)
Lemma render_and_publish_publishes {W : Type} (env : Env W)
    (content : ScrapedContent.t) (s : State W)
    (taskId imageUrl mediaId template : string) (res : ImageTask.t)
    (r : PublishResult.t) (w1 w2 w3 w4 w5 : W) :
  let article := article_of content in
  let title := WeixinTemplate.title article in
  generateImage env (cover_prompt title) "1440*768" (world s)
    = (Ret taskId, w1) ->
  waitForCompletion env taskId w1 = (Ret res, w2) ->
  first_url res = Some imageUrl -> imageUrl <> ""%string ->
  uploadImage env imageUrl w2 = (Ret mediaId, w3) ->
  render env [article] w3 = (Ret template, w4) ->
  publish env template title title mediaId w4 = (Ret r, w5) ->
  render_and_publish env content s
  = (Ret Normal,
     mkState w5
       (Stats.mk (S (Stats.success (stats s))) (Stats.failed (stats s))
          (S (Stats.contents (stats s))))
       (trace s
        ++ [GenerateImage (cover_prompt title) "1440*768" (Ret taskId);
            WaitForCompletion taskId (Ret res);
            UploadImage imageUrl (Ret mediaId);
            Render [article] (Ret template);
            Publish template title title mediaId (Ret r)])
       (publishResults s ++ [r]) (processedCount s)).
Proof.
  intros article title H1 H2 H3 Hne H4 H5 H6.
  unfold render_and_publish, generateAndUploadCover; unfold_monad.
  fold article. fold title. simpl_state.
  rewrite H1. simpl_state. rewrite H2. simpl_state. rewrite H3.
  destruct imageUrl; [contradiction|].
  simpl_state. rewrite H4. simpl_state. rewrite H5. simpl_state.
  rewrite H6. simpl_state. rewrite <- !app_assoc. reflexivity.
Qed.

(** ** Whole runs *)

Lemma process_reaches_loop_end {W : Type} (env : Env W) (s s1 : State W)
    (data : list Candidate.t) :
  fetch_feed env s = (Ret data, s1) ->
  firstn 5 data <> [] ->
  exists segs,
    loop_run (firstn 5 data)
      (mkState (world s1) (stats s1) (trace s1) [] 0)
      (loop_end env data s1) segs
    /\ process env s
       = after_loop (List.length (firstn 5 data)) (loop_end env data s1).
Proof.
  intros H E.
  destruct (process_nonempty env s s1 data H E) as (s2 & segs & E2 & H2 & Hp).
  assert (Hend : loop_end env data s1 = s2).
  { unfold loop_end, splice, init_locals. cbn [skipn snd].
    rewrite E2. reflexivity. }
  rewrite Hend. exists segs. split; assumption.
Qed.

Lemma fetch_feed_stats {W : Type} (env : Env W) (s s1 : State W)
    (r : Outcome (list Candidate.t)) :
  fetch_feed env s = (r, s1) ->
  stats s1 = stats s
  /\ exists evs,
       trace s1 = trace s ++ evs
       /\ scrape_urls evs = []
       /\ publish_returns evs = []
       /\ stage_invocations evs = 0
       /\ filter is_terminal evs = [].
Proof.
  intros H.
  destruct (fetch_feed_frame env s)
    as (evs & Ht & Hs & _ & _ & H1 & H2 & H3 & H4).
  rewrite H in Ht, Hs. cbn [snd] in Ht, Hs.
  split; [exact Hs|]. exists evs. auto.
Qed.

Lemma fetch_feed_locals {W : Type} (env : Env W) (s s1 : State W)
    (r : Outcome (list Candidate.t)) :
  fetch_feed env s = (r, s1) ->
  publishResults s1 = publishResults s
  /\ processedCount s1 = processedCount s.
Proof.
  intros H.
  destruct (fetch_feed_frame env s) as (evs & _ & _ & Hr & Hc & _).
  rewrite H in Hr, Hc. split; assumption.
Qed.

(** C2 (as amended): when the loop ends with [contents] at zero, [process]
    sends one error notification, sends neither the summary nor a terminal
    success or partial-failure notification, and returns normally: nothing
    is thrown to the caller. *)
Theorem C2_zero_processed_returns_normally {W : Type} (env : Env W)
    (s s1 : State W) (data : list Candidate.t) :
  fetch_feed env s = (Ret data, s1) ->
  firstn 5 data <> [] ->
  Stats.contents (stats (loop_end env data s1)) = 0 ->
  let s2 := loop_end env data s1 in
  process env s
  = (Ret tt,
     mkState (world s2) (stats s2)
       (trace s2 ++ [Notify Error "工作流终止" "未成功处理任何内容"])
       (publishResults s2) (processedCount s2))
  /\ exists evs,
       trace (snd (process env s))
       = trace s ++ evs ++ [Notify Error "工作流终止" "未成功处理任何内容"]
       /\ filter is_terminal
            (evs ++ [Notify Error "工作流终止" "未成功处理任何内容"]) = [].
Proof.
  intros H E Hz s2.
  destruct (process_reaches_loop_end env s s1 data H E) as (segs & Hrun & Hp).
  fold s2 in Hrun, Hp, Hz.
  assert (Hproc := Hp). rewrite (after_loop_zero _ _ Hz) in Hproc.
  split; [exact Hproc|].
  destruct (fetch_feed_stats env s s1 _ H) as (_ & evs1 & Ht1 & _ & _ & _ & T1).
  exists (evs1 ++ List.concat segs).
  rewrite Hproc. cbn [snd trace]. split.
  - rewrite (run_trace _ _ _ _ Hrun). cbn [trace]. rewrite Ht1.
    rewrite <- !app_assoc. reflexivity.
  - rewrite !filter_app, T1, (run_terminal _ _ _ _ Hrun). reflexivity.
Qed.

Lemma C2_zero_processed_returns_normally_witness :
  fst (process (Demo.env true [Demo.boom]) (fresh 0)) = Ret tt.
Proof.
  refine (f_equal fst
            (proj1 (C2_zero_processed_returns_normally
                      (Demo.env true [Demo.boom]) (fresh 0)
                      (snd (fetch_feed (Demo.env true [Demo.boom]) (fresh 0)))
                      [Demo.boom] eq_refl _ eq_refl))).
  discriminate.
Defined.

(** C2 (as stated) fails: with one candidate whose scrape finds nothing,
    [contents] is zero after the loop and [process] returns; it does not
    throw. *)
Lemma C2_zero_processed_does_not_raise :
  let run := process (Demo.env true [Demo.empty]) (fresh 0) in
  Stats.contents (stats (snd run)) = 0
  /\ fst run = Ret tt
  /\ notifications (trace (snd run))
     = [(Info, "工作流开始", "开始执行内容抓取和处理");
        (Error, "工作流终止", "未成功处理任何内容")].
Proof. repeat split. Qed.

(** ** The counters *)

Lemma after_loop_frame {W : Type} (sources : nat) (s : State W) :
  stats (snd (after_loop sources s)) = stats s
  /\ publishResults (snd (after_loop sources s)) = publishResults s
  /\ processedCount (snd (after_loop sources s)) = processedCount s.
Proof.
  unfold after_loop, report; unfold_monad. simpl_state.
  destruct (Stats.contents (stats s) =? 0)%nat; [repeat split|].
  destruct ((0 <? Stats.failed (stats s))%nat
            || (0 <? failedCount (publishResults s))%nat); repeat split.
Qed.

Lemma refresh_stats {W : Type} (env : Env W) (s : State W) :
  stats (snd (refresh env s)) = stats s.
Proof.
  unfold refresh, refresh_scraper.
  change (map_get "fireCrawl" (scraper env)) with (Some (fireCrawl env)).
  change (map_get "twitter" (scraper env)) with (Some (twitter env)).
  unfold_monad. run_calls; reflexivity.
Qed.

(** What a whole run does to the counters: a run that does not reach the
    loop leaves them alone; a run that does adds the batch to
    [success + failed]. *)
Lemma process_counters {W : Type} (env : Env W) (s : State W) :
  let s' := snd (process env s) in
  exists published handled,
    Stats.success (stats s') = Stats.success (stats s) + published
    /\ Stats.contents (stats s') = Stats.contents (stats s) + published
    /\ Stats.failed (stats s') + published
       = Stats.failed (stats s) + handled
    /\ published <= handled <= 5
    /\ (handled = 0 /\ processedCount s' = processedCount s
        \/ processedCount s' = handled).
Proof.
  intros s'. subst s'.
  destruct (fetch_feed env s) as [[data|e] s1] eqn:H;
    destruct (fetch_feed_stats env s s1 _ H) as (Hs & _);
    destruct (fetch_feed_locals env s s1 _ H) as (_ & Hc).
  - destruct (firstn 5 data) as [|c batch] eqn:Eb.
    + rewrite (process_empty env s s1 data H Eb).
      cbn [snd stats processedCount].
      exists 0, 0. rewrite Hs. repeat split; auto with arith.
    + assert (Hne : firstn 5 data <> []) by (rewrite Eb; discriminate).
      destruct (process_reaches_loop_end env s s1 data H Hne)
        as (segs & Hrun & Hp).
      rewrite Hp.
      destruct (after_loop_frame (List.length (firstn 5 data))
                  (loop_end env data s1)) as (-> & _ & ->).
      pose proof (segments_publications _ _ (run_segments _ _ _ _ Hrun)).
      destruct Hrun. cbn [stats processedCount] in *.
      exists (List.length (publish_returns (List.concat segs))),
        (List.length (firstn 5 data)).
      rewrite <- Hs. repeat split; try assumption.
      * apply firstn_le_5.
      * right. assumption.
  - rewrite (process_fetch_throws env s s1 e H).
    cbn [snd stats processedCount].
    exists 0, 0. rewrite Hs. repeat split; auto with arith.
Qed.

(** C3 (as amended): the counters are zero when the instance is constructed
    and nothing resets them afterwards.  [refresh] and the part of
    [process] before the first stage leave them as they are, so a run starts
    from the counters the previous run of the instance left, and a run never
    lowers them. *)
Theorem C3_stats_carried_across_runs {W : Type} (env : Env W)
    (s : State W) (w : W) :
  stats (fresh w) = Stats.initial
  /\ stats (snd (refresh env s)) = stats s
  /\ stats (snd (fetch_feed env s)) = stats s
  /\ Stats.success (stats s) <= Stats.success (stats (snd (process env s)))
  /\ Stats.failed (stats s) <= Stats.failed (stats (snd (process env s)))
  /\ Stats.contents (stats s) <= Stats.contents (stats (snd (process env s))).
Proof.
  split; [reflexivity|]. split; [apply refresh_stats|]. split.
  - destruct (fetch_feed env s) as [r s1] eqn:H.
    apply (fetch_feed_stats env s s1 r H).
  - destruct (process_counters env s)
      as (published & handled & H1 & H2 & H3 & H4 & _).
    lia.
Qed.

(** C3 (as stated) fails: the second tick of the cron job on the same
    instance enters [process] with the counters of the first run, and its
    first stage runs with them at (1, 0, 1). *)
Lemma C3_second_run_starts_with_old_counters :
  let env := Demo.env true [Demo.good] in
  let after_first := snd (cron_tick env (fresh 0)) in
  let second_entry := snd (refresh env after_first) in
  stats after_first = Stats.mk 1 0 1
  /\ stats second_entry = Stats.mk 1 0 1
  /\ stats (snd (fetch_feed env second_entry)) = Stats.mk 1 0 1
  /\ stats (snd (cron_tick env after_first)) = Stats.mk 2 0 2.
Proof. repeat split. Qed.

(** C4 (as amended): every candidate the loop has handled adds exactly one
    to [success + failed] (one per candidate, not one per stage).  At the
    point of the loop where [done] has been handled and [todo] is still to
    come, the sum has grown by the length of [done], which is
    [processedCount] and at most the size of the batch; a run on a new
    instance ends with [success + failed = processedCount <= 5]. *)
Theorem C4_stats_sum_counts_candidates {W : Type} (env : Env W)
    (sc : ContentScraper W) (done todo : list Candidate.t) (s : State W)
    (w : W) :
  (exists s',
     for_of done (loop_body env sc) s = (Ret tt, s')
     /\ for_of (done ++ todo) (loop_body env sc) s
        = for_of todo (loop_body env sc) s'
     /\ Stats.success (stats s') + Stats.failed (stats s')
        = Stats.success (stats s) + Stats.failed (stats s) + List.length done
     /\ processedCount s' = processedCount s + List.length done
     /\ List.length done <= List.length (done ++ todo))
  /\ (let s' := snd (process env (fresh w)) in
      Stats.success (stats s') + Stats.failed (stats s') = processedCount s'
      /\ processedCount s' <= 5).
Proof.
  split.
  - destruct (for_of_loop_run env sc done s) as (s' & segs & E & H).
    exists s'. split; [exact E|]. split.
    + rewrite for_of_app. unfold bind. rewrite E. reflexivity.
    + pose proof (run_success _ _ _ _ H). pose proof (run_failed _ _ _ _ H).
      pose proof (run_count _ _ _ _ H). rewrite length_app. lia.
  - destruct (process_counters env (fresh w))
      as (published & handled & H1 & _ & H3 & H4 & H5).
    cbn [fresh stats processedCount Stats.initial Stats.success
         Stats.failed] in *.
    lia.
Qed.

(** C4 (as stated) fails twice.  A run over one candidate that is published
    makes three stage invocations (scrape, summarize, render-and-publish)
    while [success + failed] is one; and the second run of the same instance
    over a batch of one ends with [success + failed] at two. *)
Lemma C4_sum_is_not_stage_count :
  let env := Demo.env true [Demo.good] in
  let first := snd (process env (fresh 0)) in
  let second := snd (process env first) in
  stage_invocations (trace first) = 3
  /\ Stats.success (stats first) + Stats.failed (stats first) = 1
  /\ Stats.success (stats second) + Stats.failed (stats second) = 2
  /\ List.length (splice 0 5 [Demo.good]) = 1.
Proof. repeat split. Qed.

(** ** The batch cap *)

Lemma after_loop_trace {W : Type} (sources : nat) (s : State W) :
  exists level title body,
    trace (snd (after_loop sources s))
    = trace s ++ [Notify level title body].
Proof.
  unfold after_loop, report; unfold_monad. simpl_state.
  destruct (Stats.contents (stats s) =? 0)%nat; [repeat eexists|].
  destruct ((0 <? Stats.failed (stats s))%nat
            || (0 <? failedCount (publishResults s))%nat); repeat eexists.
Qed.

(** C5: whatever the feed returns, the run works on [splice(0, 5)] of it,
    the first five candidates in feed order.  The scrape calls of the run
    are the URLs of exactly those; there are at most as many summarizer and
    publisher calls; the counters grow by the size of the capped batch; and
    the publish results are those of the capped batch.  A candidate beyond
    the fifth appears nowhere. *)
Theorem C5_batch_cap {W : Type} (env : Env W) (s s1 : State W)
    (data : list Candidate.t) :
  fetch_feed env s = (Ret data, s1) ->
  let s' := snd (process env s) in
  let batch := firstn 5 data in
  splice 0 5 data = batch
  /\ List.length batch <= 5
  /\ Stats.success (stats s') + Stats.failed (stats s')
     = Stats.success (stats s) + Stats.failed (stats s) + List.length batch
  /\ exists evs,
       trace s' = trace s1 ++ evs
       /\ scrape_urls evs = map Candidate.url batch
       /\ List.length (filter is_summarize evs) <= List.length batch
       /\ List.length (filter is_publish evs) <= List.length batch
       /\ List.length (publish_returns evs) <= List.length batch
       /\ (batch <> [] -> publishResults s' = publish_returns evs).
Proof.
  intros H s' batch. subst s'.
  destruct (fetch_feed_stats env s s1 _ H) as (Hs & _).
  split; [reflexivity|]. split; [apply firstn_le_5|].
  destruct batch as [|c rest] eqn:Eb; subst batch.
  - rewrite (process_empty env s s1 data H Eb). cbn [snd stats trace].
    split; [rewrite Hs; cbn; lia|].
    eexists. split; [reflexivity|]. cbn. repeat split; auto. congruence.
  - assert (Hne : firstn 5 data <> []) by (rewrite Eb; discriminate).
    destruct (process_reaches_loop_end env s s1 data H Hne)
      as (segs & Hrun & Hp).
    rewrite Hp. rewrite <- Eb.
    destruct (after_loop_frame (List.length (firstn 5 data))
                (loop_end env data s1)) as (-> & -> & _).
    destruct (after_loop_trace (List.length (firstn 5 data))
                (loop_end env data s1)) as (level & title & body & ->).
    pose proof (segments_scrapes _ _ (run_segments _ _ _ _ Hrun)) as Hu.
    pose proof (segments_publications _ _ (run_segments _ _ _ _ Hrun)).
    destruct Hrun. cbn [stats trace publishResults] in *.
    split; [rewrite <- Hs; lia|].
    exists (List.concat segs ++ [Notify level title body]).
    rewrite scrape_urls_app, publish_returns_app, !filter_app, !length_app.
    cbn [scrape_urls publish_returns filter is_summarize is_publish
         List.length].
    rewrite !app_nil_r, !Nat.add_0_r.
    repeat split; try assumption.
    + rewrite run_trace0, app_assoc. reflexivity.
    + intros _. exact run_results0.
Qed.

Lemma C5_batch_cap_witness :
  let feed :=
    [Demo.good; Demo.empty; Demo.boom; Demo.good; Demo.empty; Demo.boom;
     Demo.good] in
  let s' := snd (process (Demo.env true feed) (fresh 0)) in
  Stats.success (stats s') + Stats.failed (stats s') = 5.
Proof.
  intros feed s'.
  exact (proj1 (proj2 (proj2
           (C5_batch_cap (Demo.env true feed) (fresh 0)
              (snd (fetch_feed (Demo.env true feed) (fresh 0)))
              feed eq_refl)))).
Defined.

(** ** The empty feed *)

(** [below_one] is the comparison [balance < 1.0]. *)
Lemma below_one_spec (balance : number) :
  below_one balance = true <-> (balance < 1)%Q.
Proof.
  unfold below_one. rewrite negb_true_iff. split.
  - intros H. apply Qnot_le_lt. intros Hle.
    apply Qle_bool_iff in Hle. congruence.
  - intros H. destruct (Qle_bool 1 balance) eqn:E; [|reflexivity].
    apply Qle_bool_iff in E. exfalso. exact (Qlt_not_le _ _ H E).
Qed.

(** The trace of a feed request that resolved, with the balance the
    balance client answered. *)
Lemma fetch_feed_balance {W : Type} (env : Env W) (s s1 : State W)
    (data : list Candidate.t) :
  fetch_feed env s = (Ret data, s1) ->
  exists balance sourceConfigs first rest,
    fst (getCNYBalance env (world s)) = Ret balance
    /\ configured_api sourceConfigs = Some (first :: rest)
    /\ trace s1
       = trace s
         ++ [Notify Info "工作流开始" "开始执行内容抓取和处理";
             GetCNYBalance (Ret balance)]
         ++ (if below_one balance
             then [Notify Warning "DeepSeek" "余额小于一元"] else [])
         ++ [GetCronSources (Ret sourceConfigs);
             AxiosGet (Sources.identifier first) (Ret data)].
Proof.
  unfold fetch_feed; unfold_monad. simpl_state.
  destruct (getCNYBalance env (world s)) as [[balance|e] w1];
    [|discriminate].
  run_feed; simpl_state; intros H; inversion H; subst; clear H;
    simpl_state; rewrite <- ?app_assoc;
    exists balance; do 3 eexists; (split; [reflexivity|]);
    (split; [eassumption|]);
    match goal with E : below_one _ = _ |- _ => rewrite E end; reflexivity.
Qed.

(** C7 (as amended): when the feed request resolves to an empty array,
    [process] throws before any stage runs and the counters are untouched.
    The events of the run are the start notification, the balance request,
    the low-balance warning exactly when the balance the client answered is
    below one, the source and feed requests, and two error notifications:
    the data-source error and the one of the outer [catch]. *)
Theorem C7_empty_feed_is_fatal {W : Type} (env : Env W) (s s1 : State W) :
  fetch_feed env s = (Ret [], s1) ->
  process env s
  = (Throw (ErrorObj "API 返回数据为空"),
     mkState (world s1) (stats s)
       (trace s1 ++ [Notify Error "数据源错误" "API 返回数据为空";
                     Notify Error "工作流失败" "API 返回数据为空"])
       (publishResults s) (processedCount s))
  /\ exists evs balance sourceConfigs first,
       fst (getCNYBalance env (world s)) = Ret balance
       /\ trace (snd (process env s)) = trace s ++ evs
       /\ evs
          = [Notify Info "工作流开始" "开始执行内容抓取和处理";
             GetCNYBalance (Ret balance)]
            ++ (if below_one balance
                then [Notify Warning "DeepSeek" "余额小于一元"] else [])
            ++ [GetCronSources (Ret sourceConfigs);
                AxiosGet (Sources.identifier first) (Ret []);
                Notify Error "数据源错误" "API 返回数据为空";
                Notify Error "工作流失败" "API 返回数据为空"]
       /\ stage_invocations evs = 0
       /\ scrape_urls evs = []
       /\ publish_returns evs = []
       /\ notifications evs
          = [(Info, "工作流开始"%string, "开始执行内容抓取和处理"%string)]
            ++ (if below_one balance
                then [(Warning, "DeepSeek"%string, "余额小于一元"%string)]
                else [])
            ++ [(Error, "数据源错误"%string, "API 返回数据为空"%string);
                (Error, "工作流失败"%string, "API 返回数据为空"%string)]
       /\ ((balance < 1)%Q ->
           notifications evs
           = [(Info, "工作流开始"%string, "开始执行内容抓取和处理"%string);
              (Warning, "DeepSeek"%string, "余额小于一元"%string);
              (Error, "数据源错误"%string, "API 返回数据为空"%string);
              (Error, "工作流失败"%string, "API 返回数据为空"%string)])
       /\ (~ (balance < 1)%Q ->
           notifications evs
           = [(Info, "工作流开始"%string, "开始执行内容抓取和处理"%string);
              (Error, "数据源错误"%string, "API 返回数据为空"%string);
              (Error, "工作流失败"%string, "API 返回数据为空"%string)]).
Proof.
  intros H.
  pose proof (process_empty env s s1 [] H eq_refl) as Hp.
  destruct (fetch_feed_stats env s s1 _ H) as (Hs & _).
  destruct (fetch_feed_locals env s s1 _ H) as (Hr & Hc).
  rewrite Hs, Hr, Hc in Hp. split; [exact Hp|].
  destruct (fetch_feed_balance env s s1 [] H)
    as (balance & src & first & rest & Hb & _ & Ht).
  rewrite Hp. cbn [snd trace]. rewrite Ht.
  eexists. exists balance, src, first.
  split; [exact Hb|]. split; [rewrite <- !app_assoc; reflexivity|].
  pose proof (below_one_spec balance) as Hspec.
  destruct (below_one balance);
    (split; [reflexivity|]); repeat split; intros Hlt.
  - exfalso. apply Hlt. apply Hspec. reflexivity.
  - apply Hspec in Hlt. discriminate.
Qed.

Lemma C7_empty_feed_is_fatal_witness :
  fst (process (Demo.env true []) (fresh 0))
  = Throw (ErrorObj "API 返回数据为空").
Proof.
  exact (f_equal fst
           (proj1 (C7_empty_feed_is_fatal (Demo.env true []) (fresh 0)
                     (snd (fetch_feed (Demo.env true []) (fresh 0)))
                     eq_refl))).
Defined.

(** C7 (as stated) fails: on an empty feed the run sends three
    notifications, the first of which is the informational start
    notification, and two of which are errors. *)
Lemma C7_empty_feed_sends_start_notification :
  let run := process (Demo.env true []) (fresh 0) in
  fst run = Throw (ErrorObj "API 返回数据为空")
  /\ stats (snd run) = Stats.initial
  /\ notifications (trace (snd run))
     = [(Info, "工作流开始", "开始执行内容抓取和处理");
        (Error, "数据源错误", "API 返回数据为空");
        (Error, "工作流失败", "API 返回数据为空")].
Proof. repeat split. Qed.

(** ** The report *)

(** The report sends one notification and changes nothing else; it is the
    success notification exactly when [failed] is zero and no publish result
    is outside published/draft. *)
Lemma report_spec {W : Type} (sources : nat) (s : State W) :
  let summary := summary_text sources (stats s) (publishResults s) in
  let rejected :=
    List.length
      (filter (fun r => negb (is_published r)) (publishResults s)) in
  exists ev,
    report sources s
    = (Ret tt,
       mkState (world s) (stats s) (trace s ++ [ev]) (publishResults s)
         (processedCount s))
    /\ is_terminal ev = true
    /\ (ev = Notify Success "工作流完成" summary
        <-> Stats.failed (stats s) = 0 /\ rejected = 0)
    /\ (ev = Notify Warning "工作流完成(部分失败)" summary
        <-> ~ (Stats.failed (stats s) = 0 /\ rejected = 0)).
Proof.
  intros summary rejected. subst rejected.
  rewrite <- failedCount_filter.
  unfold report; unfold_monad. simpl_state. fold summary.
  destruct ((0 <? Stats.failed (stats s))%nat
            || (0 <? failedCount (publishResults s))%nat) eqn:E.
  - eexists. split; [reflexivity|]. split; [reflexivity|].
    apply orb_true_iff in E. rewrite !Nat.ltb_lt in E.
    split; split; try discriminate; intros; try reflexivity; lia.
  - eexists. split; [reflexivity|]. split; [reflexivity|].
    apply orb_false_iff in E. rewrite !Nat.ltb_ge in E.
    split; split; try discriminate; intros; try reflexivity; lia.
Qed.

(** The test of line 267 accepts exactly the two statuses. *)
Lemma is_published_statuses (r : PublishResult.t) :
  is_published r = true
  <-> PublishResult.status r = "published"%string
      \/ PublishResult.status r = "draft"%string.
Proof.
  unfold is_published. rewrite orb_true_iff, !String.eqb_eq. reflexivity.
Qed.

Lemma neither_is_not_published (r : PublishResult.t) :
  neither_published_nor_draft r = negb (is_published r).
Proof.
  unfold neither_published_nor_draft, is_published.
  rewrite negb_orb. reflexivity.
Qed.

(** No result is counted as neither published nor draft exactly when every
    status is one of the two. *)
Lemma none_rejected (results : list PublishResult.t) :
  List.length (filter neither_published_nor_draft results) = 0
  <-> Forall (fun r => PublishResult.status r = "published"%string
                       \/ PublishResult.status r = "draft"%string) results.
Proof.
  induction results as [|r results IH]; cbn [filter].
  - split; [constructor|reflexivity].
  - rewrite neither_is_not_published.
    destruct (is_published r) eqn:E; cbn [negb List.length].
    + rewrite IH. split.
      * intros H. constructor; [apply is_published_statuses, E|exact H].
      * intros H. inversion H; assumption.
    + split; [discriminate|].
      intros H. inversion H as [|? ? Hr _]; subst.
      apply is_published_statuses in Hr. congruence.
Qed.

(** C8: a run that reaches the report (the batch is not empty and
    [contents] is not zero after the loop) returns after sending exactly one
    terminal notification, as its last event.  It is the success
    notification if and only if [failed] is zero and the number of publish
    results whose status is neither "published" nor "draft" is zero, that
    is, every publish result has one of these two statuses; otherwise it is
    the partial-failure warning. *)
Theorem C8_terminal_classification {W : Type} (env : Env W)
    (s s1 : State W) (data : list Candidate.t) :
  fetch_feed env s = (Ret data, s1) ->
  firstn 5 data <> [] ->
  Stats.contents (stats (loop_end env data s1)) <> 0 ->
  let s' := snd (process env s) in
  let summary :=
    summary_text (List.length (firstn 5 data)) (stats s')
      (publishResults s') in
  let rejected :=
    List.length (filter neither_published_nor_draft (publishResults s')) in
  fst (process env s) = Ret tt
  /\ (rejected = 0
      <-> Forall (fun r => PublishResult.status r = "published"%string
                           \/ PublishResult.status r = "draft"%string)
            (publishResults s'))
  /\ exists evs ev,
       trace s' = trace s ++ evs ++ [ev]
       /\ filter is_terminal (evs ++ [ev]) = [ev]
       /\ (ev = Notify Success "工作流完成" summary
           <-> Stats.failed (stats s') = 0 /\ rejected = 0)
       /\ (ev = Notify Warning "工作流完成(部分失败)" summary
           <-> ~ (Stats.failed (stats s') = 0 /\ rejected = 0)).
Proof.
  intros H E Hc s'. subst s'.
  destruct (process_reaches_loop_end env s s1 data H E) as (segs & Hrun & Hp).
  rewrite Hp, (after_loop_report _ _ Hc).
  destruct (report_spec (List.length (firstn 5 data)) (loop_end env data s1))
    as (ev & -> & Hterm & Hok & Hwarn).
  cbn [fst snd stats publishResults trace].
  rewrite (filter_ext _ _ neither_is_not_published).
  split; [reflexivity|].
  split; [rewrite <- (filter_ext _ _ neither_is_not_published);
          apply none_rejected|].
  destruct (fetch_feed_stats env s s1 _ H) as (_ & evs1 & Ht1 & _ & _ & _ & T1).
  exists (evs1 ++ List.concat segs), ev.
  split; [|split; [|split; assumption]].
  - rewrite (run_trace _ _ _ _ Hrun). cbn [trace]. rewrite Ht1.
    rewrite <- !app_assoc. reflexivity.
  - rewrite !filter_app, T1, (run_terminal _ _ _ _ Hrun).
    cbn [filter app]. rewrite Hterm. reflexivity.
Qed.

Lemma C8_terminal_classification_witness :
  let feed := [Demo.good; Demo.empty] in
  fst (process (Demo.env true feed) (fresh 0)) = Ret tt.
Proof.
  intros feed.
  assert (Hne : firstn 5 feed <> []) by discriminate.
  assert (Hc : Stats.contents
                 (stats (loop_end (Demo.env true feed) feed
                           (snd (fetch_feed (Demo.env true feed) (fresh 0)))))
               <> 0)
    by (vm_compute; discriminate).
  exact (proj1 (C8_terminal_classification (Demo.env true feed) (fresh 0)
                  (snd (fetch_feed (Demo.env true feed) (fresh 0)))
                  feed eq_refl Hne Hc)).
Defined.

(** ** Order *)


(** Every weekday of [Date.getDay()] maps to a key of the workflow table,
    which holds an instance for each of 1 to 7. *)
Lemma adjustedDay_in_table (dayOfWeek : nat) :
  dayOfWeek <= 6 -> 1 <= adjustedDay dayOfWeek <= 7.
Proof.
  intros H. unfold adjustedDay.
  destruct (Nat.eqb_spec dayOfWeek 0); lia.
Qed.

(** The report on one result: a draft is a clean success, a failed status a
    partial failure. *)
Example draft_is_clean_success :
  notifications
    (trace (snd (report 1
                   (mkState 0 (Stats.mk 1 0 1) []
                      [PublishResult.mk "p1" "draft"] 1))))
  = [(Success, "工作流完成",
      summary_text 1 (Stats.mk 1 0 1) [PublishResult.mk "p1" "draft"])].
Proof. reflexivity. Qed.

Example failed_status_is_partial_failure :
  notifications
    (trace (snd (report 1
                   (mkState 0 (Stats.mk 1 0 1) []
                      [PublishResult.mk "p1" "failed"] 1))))
  = [(Warning, "工作流完成(部分失败)",
      summary_text 1 (Stats.mk 1 0 1) [PublishResult.mk "p1" "failed"])].
Proof. reflexivity. Qed.

(** An empty feed with a balance of one half: the low-balance warning is
    among the notifications. *)
Example low_balance_empty_feed :
  notifications
    (trace (snd (process
                   (Demo.custom true Demo.the_sources (Ret []) Demo.the_task)
                   (fresh 0))))
  = [(Info, "工作流开始", "开始执行内容抓取和处理");
     (Warning, "DeepSeek", "余额小于一元");
     (Error, "数据源错误", "API 返回数据为空");
     (Error, "工作流失败", "API 返回数据为空")].
Proof. reflexivity. Qed.

(** Two runs of the whole workflow, for reference: a mixed batch, and a
    batch whose summarizer fails yet is published with the scraped title. *)
Example mixed_batch :
  let s' :=
    snd (process (Demo.env true [Demo.good; Demo.empty; Demo.boom; Demo.good])
           (fresh 0)) in
  stats s' = Stats.mk 2 2 2
  /\ scrape_urls (trace s')
     = ["https://a.example"; "https://empty.example"; "https://boom.example";
        "https://a.example"]%string
  /\ List.length (publishResults s') = 2
  /\ processedCount s' = 4.
Proof. repeat split. Qed.

Example summarizer_failure_still_publishes :
  let s' := snd (process (Demo.env false [Demo.good]) (fresh 0)) in
  publish_returns (trace s') = [PublishResult.mk "p1" "published"]
  /\ In (Publish "<section/>" (Some "raw https://a.example"%string)
           (Some "raw https://a.example"%string) "media-1"
           (Ret (PublishResult.mk "p1" "published")))
        (trace s').
Proof.
  split; [reflexivity|].
  vm_compute. do 11 right. left. reflexivity.
Qed.

(** ** Further properties: the helper methods *)

(** X1: [scrapeSource] never raises.  It counts the call once, as a success
    when the scraper answered and as a failure when it threw; in the second
    case it returns the empty list and sends one warning that names the
    source type, the source and the error message. *)
Theorem X1_scrapeSource_never_raises {W : Type} (type : string)
    (source : Sources.source) (sc : ContentScraper W) (s : State W) :
  exists contents s',
    scrapeSource type source sc s = (Ret contents, s')
    /\ Stats.success (stats s') + Stats.failed (stats s')
       = S (Stats.success (stats s) + Stats.failed (stats s))
    /\ Stats.contents (stats s') = Stats.contents (stats s)
    /\ match scrape sc (Sources.identifier source) (world s) with
       | (Ret scraped, _) =>
           contents = scraped
           /\ Stats.failed (stats s') = Stats.failed (stats s)
           /\ notifications (trace s') = notifications (trace s)
       | (Throw e, _) =>
           contents = []
           /\ Stats.success (stats s') = Stats.success (stats s)
           /\ notifications (trace s')
              = notifications (trace s)
                ++ [(Warning, (type ++ "抓取失败")%string,
                     ("源: " ++ Sources.identifier source ++ nl
                      ++ "错误: " ++ error_message e)%string)]
       end.
Proof.
  unfold scrapeSource; unfold_monad.
  destruct (scrape sc (Sources.identifier source) (world s)) as [[scraped|e] w1];
    simpl_state; eexists; eexists; (split; [reflexivity|]); simpl_state;
    rewrite ?notifications_app; cbn [notifications];
    rewrite ?app_nil_r; repeat split; lia.
Qed.

(** X2: [processContent] never raises and never touches the counters or
    the publish results.  Whatever the summarizer does, the id, the URL, the
    publish date and the other metadata of the content are kept.  When the
    summarizer answers, the content takes the title, body, score and
    keywords of the summary and no notification is sent; when it throws, one
    warning is sent, and the title, the body and the keywords are defined
    afterwards, the title and the body not empty. *)
Theorem X2_processContent_keeps_identity {W : Type} (env : Env W)
    (content : ScrapedContent.t) (s : State W) :
  exists content' s',
    processContent env content s = (Ret content', s')
    /\ ScrapedContent.id content' = ScrapedContent.id content
    /\ ScrapedContent.url content' = ScrapedContent.url content
    /\ ScrapedContent.publishDate content'
       = ScrapedContent.publishDate content
    /\ Metadata.others (ScrapedContent.metadata content')
       = Metadata.others (ScrapedContent.metadata content)
    /\ stats s' = stats s
    /\ publishResults s' = publishResults s
    /\ match summarize env (stringify env content) (world s) with
       | (Ret summary, _) =>
           content' = apply_summary content summary
           /\ ScrapedContent.title content' = Some (Summary.title summary)
           /\ ScrapedContent.content content'
              = Some (Summary.content summary)
           /\ ScrapedContent.score content' = Some (Summary.score summary)
           /\ Metadata.keywords (ScrapedContent.metadata content')
              = Some (Summary.keywords summary)
           /\ notifications (trace s') = notifications (trace s)
       | (Throw _, _) =>
           content' = keep_original content
           /\ ScrapedContent.score content' = ScrapedContent.score content
           /\ (exists title body keywords,
                 ScrapedContent.title content' = Some title
                 /\ title <> ""%string
                 /\ ScrapedContent.content content' = Some body
                 /\ body <> ""%string
                 /\ Metadata.keywords (ScrapedContent.metadata content')
                    = Some keywords)
           /\ notifications (trace s')
              = notifications (trace s)
                ++ [(Warning, "内容处理失败"%string,
                     ("ID: " ++ ScrapedContent.id content ++ nl
                      ++ "保留原始内容")%string)]
       end.
Proof.
  unfold processContent; unfold_monad.
  destruct (summarize env (stringify env content) (world s))
    as [[summary|e] w1];
    simpl_state; eexists; eexists; (split; [reflexivity|]); simpl_state;
    rewrite ?notifications_app; cbn [notifications];
    rewrite ?app_nil_r; repeat split.
  cbn. do 3 eexists. repeat split.
  - destruct (ScrapedContent.title content) as [[|a t]|]; discriminate.
  - destruct (ScrapedContent.content content) as [[|a t]|]; discriminate.
Qed.

(** X3: when the image task completes without a usable URL (no results, an
    empty result list, a first result without URL, or an empty URL),
    [generateAndUploadCover] throws "封面图片生成失败" after the two image
    calls: nothing is uploaded. *)
Theorem X3_cover_without_url_fails_before_upload {W : Type} (env : Env W)
    (title : option string) (s : State W) (taskId : string)
    (res : ImageTask.t) (w1 w2 : W) :
  generateImage env (cover_prompt title) "1440*768" (world s)
    = (Ret taskId, w1) ->
  waitForCompletion env taskId w1 = (Ret res, w2) ->
  or_string (first_url res) "" = ""%string ->
  generateAndUploadCover env title s
  = (Throw (ErrorObj "封面图片生成失败"),
     mkState w2 (stats s)
       (trace s
        ++ [GenerateImage (cover_prompt title) "1440*768" (Ret taskId);
            WaitForCompletion taskId (Ret res)])
       (publishResults s) (processedCount s)).
Proof.
  intros H1 H2 H3.
  unfold generateAndUploadCover; unfold_monad. simpl_state.
  rewrite H1. simpl_state. rewrite H2. simpl_state.
  destruct (first_url res) as [[|a u]|]; try discriminate;
    rewrite <- app_assoc; reflexivity.
Qed.

Lemma X3_cover_without_url_fails_before_upload_witness :
  fst (generateAndUploadCover
         (Demo.custom true Demo.the_sources (Ret []) Demo.no_url_task)
         (Some "t"%string) (fresh 0))
  = Throw (ErrorObj "封面图片生成失败").
Proof.
  exact (f_equal fst
           (X3_cover_without_url_fails_before_upload
              (Demo.custom true Demo.the_sources (Ret []) Demo.no_url_task)
              (Some "t"%string) (fresh 0) "task-1" Demo.no_url_task 1 2
              eq_refl eq_refl eq_refl)).
Defined.

(** X4: [generateAndUploadCover] leaves the counters alone, makes at most
    one upload, and returns a media id only as the answer of [uploadImage]
    to the non-empty URL of the first result of the completed task.  When it
    throws, the error is the one raised by one of its three calls or by the
    missing URL. *)
Theorem X4_cover_uploads_completed_image {W : Type} (env : Env W)
    (title : option string) (s : State W) :
  exists evs,
    trace (snd (generateAndUploadCover env title s)) = trace s ++ evs
    /\ stats (snd (generateAndUploadCover env title s)) = stats s
    /\ List.length (filter is_upload evs) <= 1
    /\ match fst (generateAndUploadCover env title s) with
       | Ret mediaId =>
           exists taskId res imageUrl,
             evs = [GenerateImage (cover_prompt title) "1440*768"
                      (Ret taskId);
                    WaitForCompletion taskId (Ret res);
                    UploadImage imageUrl (Ret mediaId)]
             /\ first_url res = Some imageUrl
             /\ imageUrl <> ""%string
       | Throw e => In (Some e) (map raised_by evs)
       end.
Proof.
  unfold generateAndUploadCover; unfold_monad.
  run_calls; simpl_state; rewrite <- ?app_assoc;
    (eexists; split; [reflexivity|]); (split; [reflexivity|]);
    (split; [cbn; lia|]).
  all: cbn [app map raised_by In fst];
    repeat match goal with E : first_url _ = _ |- _ => rewrite E end;
    first [ left; reflexivity
          | right; left; reflexivity
          | right; right; left; reflexivity
          | do 3 eexists; split; [reflexivity|];
            split; [eassumption|discriminate] ].
Qed.

(** ** Further properties: [refresh] and the cron tick *)

Ltac unfold_refresh env :=
  unfold refresh, refresh_scraper;
  change (map_get "fireCrawl" (scraper env)) with (Some (fireCrawl env));
  change (map_get "twitter" (scraper env)) with (Some (twitter env));
  unfold_monad.

(** [refresh] sends no notification and runs no stage. *)
Lemma refresh_frame {W : Type} (env : Env W) (s : State W) :
  exists evs,
    trace (snd (refresh env s)) = trace s ++ evs
    /\ notifications evs = []
    /\ scrape_urls evs = []
    /\ stage_invocations evs = 0.
Proof.
  unfold_refresh env.
  run_calls; simpl_state; rewrite <- ?app_assoc;
    (eexists; split; [reflexivity|]); repeat split.
Qed.

(** X5: [refresh] renews the components in a fixed order (notifier,
    summarizer, publisher, the two scrapers, image generator, balance
    client) and stops at the first one that throws: the components after it
    are not refreshed and its error is the one [refresh] throws.  It returns
    only when all seven have been refreshed. *)
Theorem X5_refresh_in_order_until_first_failure {W : Type} (env : Env W)
    (s : State W) :
  exists evs,
    trace (snd (refresh env s)) = trace s ++ evs
    /\ refreshed evs = firstn (List.length evs) refresh_order
    /\ stats (snd (refresh env s)) = stats s
    /\ match fst (refresh env s) with
       | Ret _ => refreshed evs = refresh_order /\ filter threw evs = []
       | Throw e =>
           exists component before,
             rev evs = Refresh component (Throw e) :: before
             /\ filter threw before = []
       end.
Proof.
  unfold_refresh env.
  run_calls; simpl_state; rewrite <- ?app_assoc;
    (eexists; split; [reflexivity|]); (split; [reflexivity|]);
    (split; [reflexivity|]);
    first [ split; reflexivity
          | do 2 eexists; split; reflexivity ].
Qed.

(** X6: when [refresh] throws, the cron tick swallows the error and
    [process] is not started: the tick returns, the counters are as before,
    no notification is sent and nothing is scraped. *)
Theorem X6_failed_refresh_skips_the_run {W : Type} (env : Env W)
    (s s1 : State W) (e : Thrown) :
  refresh env s = (Throw e, s1) ->
  cron_tick env s = (Ret tt, s1)
  /\ stats s1 = stats s
  /\ notifications (trace s1) = notifications (trace s)
  /\ scrape_urls (trace s1) = scrape_urls (trace s).
Proof.
  intros H. split.
  - unfold cron_tick, try_catch, bind. rewrite H. reflexivity.
  - pose proof (refresh_stats env s) as Hs.
    destruct (refresh_frame env s) as (evs & Ht & Hn & Hu & _).
    rewrite H in Hs, Ht. cbn [snd] in Hs, Ht.
    rewrite Ht, notifications_app, scrape_urls_app, Hn, Hu, !app_nil_r.
    auto.
Qed.

Lemma X6_failed_refresh_skips_the_run_witness :
  let env :=
    Demo.custom false Demo.the_sources (Ret [Demo.good]) Demo.the_task in
  cron_tick env (fresh 0)
  = (Ret tt,
     mkState 2 Stats.initial
       [Refresh "notifier" (Ret tt);
        Refresh "summarizer" (Throw (ErrorObj "expired"))] [] 0).
Proof.
  intros env.
  exact (proj1 (X6_failed_refresh_skips_the_run env (fresh 0)
                  (snd (refresh env (fresh 0))) (ErrorObj "expired")
                  eq_refl)).
Defined.

(** ** Further properties: whole runs *)

Lemma after_loop_returns {W : Type} (sources : nat) (s : State W) :
  fst (after_loop sources s) = Ret tt.
Proof.
  unfold after_loop, report; unfold_monad. simpl_state.
  destruct (Stats.contents (stats s) =? 0)%nat; [reflexivity|].
  destruct ((0 <? Stats.failed (stats s))%nat
            || (0 <? failedCount (publishResults s))%nat); reflexivity.
Qed.

Lemma firstn_5_nil {A : Type} (l : list A) : firstn 5 l = [] <-> l = [].
Proof. destruct l; split; intros H; try reflexivity; discriminate. Qed.

(** X7: an error never leaves [process] without having been notified: when
    [process] throws [e], the last event of the run is the error
    notification "工作流失败" carrying the message of [e].  Such a run has
    scraped nothing and has left the counters as they were. *)
Theorem X7_thrown_error_was_notified {W : Type} (env : Env W)
    (s s' : State W) (e : Thrown) :
  process env s = (Throw e, s') ->
  exists evs,
    trace s' = trace s ++ evs ++ [Notify Error "工作流失败" (error_message e)]
    /\ scrape_urls evs = []
    /\ stats s' = stats s.
Proof.
  intros H.
  destruct (fetch_feed env s) as [[data|e0] s1] eqn:F;
    destruct (fetch_feed_stats env s s1 _ F)
      as (Hs & evs1 & Ht & Hu & _ & _ & _).
  - destruct (firstn 5 data) as [|c batch] eqn:Eb.
    + rewrite (process_empty env s s1 data F Eb) in H.
      inversion H; subst e s'; clear H. cbn [trace stats error_message].
      exists (evs1 ++ [Notify Error "数据源错误" "API 返回数据为空"]).
      rewrite Ht, scrape_urls_app, Hu, <- !app_assoc. auto.
    + assert (Hne : firstn 5 data <> []) by (rewrite Eb; discriminate).
      destruct (process_reaches_loop_end env s s1 data F Hne)
        as (segs & _ & Hp).
      pose proof (after_loop_returns (List.length (firstn 5 data))
                    (loop_end env data s1)) as Hr.
      rewrite <- Hp, H in Hr. discriminate.
  - rewrite (process_fetch_throws env s s1 e0 F) in H.
    inversion H; subst e s'; clear H. cbn [trace stats].
    exists evs1. rewrite Ht, <- app_assoc. auto.
Qed.

Lemma X7_thrown_error_was_notified_witness :
  exists evs,
    trace (snd (process (Demo.env true []) (fresh 0)))
    = [] ++ evs ++ [Notify Error "工作流失败" "API 返回数据为空"]
    /\ scrape_urls evs = []
    /\ stats (snd (process (Demo.env true []) (fresh 0))) = Stats.initial.
Proof.
  exact (X7_thrown_error_was_notified (Demo.env true []) (fresh 0)
           (snd (process (Demo.env true []) (fresh 0)))
           (ErrorObj "API 返回数据为空") eq_refl).
Defined.

(** X8: [process] returns normally exactly when the feed request resolved
    to a non-empty array.  From there on no adapter failure makes it throw:
    the errors of the items stay inside the loop. *)
Theorem X8_returns_iff_feed_not_empty {W : Type} (env : Env W)
    (s : State W) :
  fst (process env s) = Ret tt
  <-> exists data, fst (fetch_feed env s) = Ret data /\ data <> [].
Proof.
  destruct (fetch_feed env s) as [[data|e0] s1] eqn:F; cbn [fst].
  - destruct (firstn 5 data) as [|c batch] eqn:Eb.
    + rewrite (process_empty env s s1 data F Eb). cbn [fst].
      apply (proj1 (firstn_5_nil data)) in Eb. split; [discriminate|].
      intros (data' & Hd & Hne). inversion Hd; subst. congruence.
    + assert (Hne : firstn 5 data <> []) by (rewrite Eb; discriminate).
      destruct (process_reaches_loop_end env s s1 data F Hne)
        as (segs & _ & Hp).
      rewrite Hp, after_loop_returns. split; [|reflexivity].
      intros _. exists data. split; [reflexivity|].
      intros ->. discriminate.
  - rewrite (process_fetch_throws env s s1 e0 F). cbn [fst].
    split; [discriminate|]. intros (data & Hd & _). discriminate.
Qed.

(** X9: when the feed request throws, [process] rethrows the same error
    after two error notifications carrying its message, "API 请求失败" from
    the inner [catch] and "工作流失败" from the outer one; the counters are
    untouched. *)
Theorem X9_feed_request_failure {W : Type} (env : Env W) (s : State W)
    (balance : number) (sourceConfigs : Sources.t) (first : Sources.source)
    (rest : list Sources.source) (e : Thrown) (w1 w2 w3 : W) :
  getCNYBalance env (world s) = (Ret balance, w1) ->
  getCronSources env w1 = (Ret sourceConfigs, w2) ->
  configured_api sourceConfigs = Some (first :: rest) ->
  axios_get env (Sources.identifier first) w2 = (Throw e, w3) ->
  process env s
  = (Throw e,
     mkState w3 (stats s)
       (trace s
        ++ [Notify Info "工作流开始" "开始执行内容抓取和处理";
            GetCNYBalance (Ret balance)]
        ++ (if below_one balance
            then [Notify Warning "DeepSeek" "余额小于一元"] else [])
        ++ [GetCronSources (Ret sourceConfigs);
            AxiosGet (Sources.identifier first) (Throw e);
            Notify Error "API 请求失败" (error_message e);
            Notify Error "工作流失败" (error_message e)])
       (publishResults s) (processedCount s)).
Proof.
  intros H1 H2 H3 H4.
  unfold process, fetch_feed, outer_catch; unfold_monad. simpl_state.
  rewrite H1. simpl_state.
  destruct (below_one balance); simpl_state; rewrite H2; simpl_state;
    rewrite H3; simpl_state; rewrite H4; simpl_state;
    rewrite <- !app_assoc; reflexivity.
Qed.

Lemma X9_feed_request_failure_witness :
  let env :=
    Demo.custom true Demo.the_sources (Throw (OtherValue "ECONNRESET"))
      Demo.the_task in
  notifications (trace (snd (process env (fresh 0))))
  = [(Info, "工作流开始", "开始执行内容抓取和处理");
     (Warning, "DeepSeek", "余额小于一元");
     (Error, "API 请求失败", "ECONNRESET");
     (Error, "工作流失败", "ECONNRESET")].
Proof.
  intros env.
  exact (f_equal (fun r => notifications (trace (snd r)))
           (X9_feed_request_failure env (fresh 0) (1 # 2)%Q Demo.the_sources
              (Sources.mkSource "https://feed.example") []
              (OtherValue "ECONNRESET") 1 2 3
              eq_refl eq_refl eq_refl eq_refl)).
Defined.

(** X10: when the configuration has no API source ([All] missing, [api]
    missing, or [api] empty), [process] throws the configuration error
    without making any feed request; the outer [catch] sends the only error
    notification. *)
Theorem X10_missing_api_source {W : Type} (env : Env W) (s : State W)
    (balance : number) (sourceConfigs : Sources.t) (w1 w2 : W) :
  getCNYBalance env (world s) = (Ret balance, w1) ->
  getCronSources env w1 = (Ret sourceConfigs, w2) ->
  configured_api sourceConfigs = None ->
  let message := "API URL 未配置，请检查 sourceConfigs.All.api"%string in
  let s' := snd (process env s) in
  process env s
  = (Throw (ErrorObj message),
     mkState w2 (stats s)
       (trace s
        ++ [Notify Info "工作流开始" "开始执行内容抓取和处理";
            GetCNYBalance (Ret balance)]
        ++ (if below_one balance
            then [Notify Warning "DeepSeek" "余额小于一元"] else [])
        ++ [GetCronSources (Ret sourceConfigs);
            Notify Error "工作流失败" message])
       (publishResults s) (processedCount s))
  /\ filter is_axios (trace s') = filter is_axios (trace s).
Proof.
  intros H1 H2 H3 message s'.
  assert (Hp : process env s
               = (Throw (ErrorObj message),
                  mkState w2 (stats s)
                    (trace s
                     ++ [Notify Info "工作流开始" "开始执行内容抓取和处理";
                         GetCNYBalance (Ret balance)]
                     ++ (if below_one balance
                         then [Notify Warning "DeepSeek" "余额小于一元"]
                         else [])
                     ++ [GetCronSources (Ret sourceConfigs);
                         Notify Error "工作流失败" message])
                    (publishResults s) (processedCount s))).
  { unfold process, fetch_feed, outer_catch; unfold_monad. simpl_state.
    rewrite H1. simpl_state.
    destruct (below_one balance); simpl_state; rewrite H2; simpl_state;
      rewrite H3; simpl_state; rewrite <- !app_assoc; reflexivity. }
  split; [exact Hp|].
  subst s'. rewrite Hp. cbn [snd trace]. rewrite !filter_app.
  destruct (below_one balance); cbn; rewrite app_nil_r; reflexivity.
Qed.

Lemma X10_missing_api_source_witness :
  let env := Demo.custom true Demo.no_sources (Ret [Demo.good]) Demo.the_task in
  fst (process env (fresh 0))
  = Throw (ErrorObj "API URL 未配置，请检查 sourceConfigs.All.api").
Proof.
  intros env.
  exact (f_equal fst
           (proj1 (X10_missing_api_source env (fresh 0) (1 # 2)%Q
                     Demo.no_sources 1 2 eq_refl eq_refl eq_refl))).
Defined.

(** The sources pass the configuration check exactly when [All] and its
    [api] are present and [api] is not empty. *)
Lemma configured_api_none (sourceConfigs : Sources.t) :
  configured_api sourceConfigs = None
  <-> Sources.All sourceConfigs = None
      \/ (exists all, Sources.All sourceConfigs = Some all
                      /\ (Sources.api all = None \/ Sources.api all = Some [])).
Proof.
  unfold configured_api.
  destruct (Sources.All sourceConfigs) as [all|]; [|tauto].
  destruct (Sources.api all) as [[|x l]|] eqn:E; split; intros H; eauto.
  - discriminate.
  - destruct H as [H|(a & Ha & [H|H])]; try discriminate;
      inversion Ha; subst; congruence.
Qed.

(** ** Further properties: accounting *)

(** X11: [process] moves [success] and [contents] together: whatever
    happens in a run, both grow by the same amount, so their difference is
    the same before and after. *)
Theorem X11_success_and_contents_move_together {W : Type} (env : Env W)
    (s : State W) :
  let s' := snd (process env s) in
  Stats.success (stats s') + Stats.contents (stats s)
  = Stats.contents (stats s') + Stats.success (stats s).
Proof.
  intros s'. subst s'.
  destruct (process_counters env s) as (published & handled & H1 & H2 & _).
  lia.
Qed.

(** X12: every candidate of the capped batch is accounted for exactly once:
    after a run that reached the loop, the number of publish results plus
    the growth of [failed] is the size of the batch, the growth of
    [contents] is the number of publish results, and the two publish counts
    of the report add up to it. *)
Theorem X12_each_candidate_published_or_failed {W : Type} (env : Env W)
    (s s1 : State W) (data : list Candidate.t) :
  fetch_feed env s = (Ret data, s1) ->
  data <> [] ->
  let s' := snd (process env s) in
  let results := publishResults s' in
  List.length results + Stats.failed (stats s')
  = Stats.failed (stats s) + List.length (firstn 5 data)
  /\ Stats.contents (stats s')
     = Stats.contents (stats s) + List.length results
  /\ successCount results + failedCount results = List.length results
  /\ processedCount s' = List.length (firstn 5 data).
Proof.
  intros F Hd s' results. subst results s'.
  assert (Hne : firstn 5 data <> [])
    by (intros E; apply Hd, (proj1 (firstn_5_nil data) E)).
  destruct (fetch_feed_stats env s s1 _ F) as (Hs & _).
  destruct (process_reaches_loop_end env s s1 data F Hne)
    as (segs & Hrun & Hp).
  rewrite Hp.
  destruct (after_loop_frame (List.length (firstn 5 data))
              (loop_end env data s1)) as (-> & -> & ->).
  destruct Hrun. cbn [stats publishResults processedCount app] in *.
  rewrite run_results0, <- Hs.
  repeat split; try lia.
  unfold failedCount, successCount.
  pose proof (filter_length_le is_published
                (publish_returns (List.concat segs))).
  lia.
Qed.

Lemma X12_each_candidate_published_or_failed_witness :
  let feed := [Demo.good; Demo.boom; Demo.empty] in
  let s' := snd (process (Demo.env true feed) (fresh 0)) in
  List.length (publishResults s') + Stats.failed (stats s') = 3.
Proof.
  intros feed s'.
  refine (proj1 (X12_each_candidate_published_or_failed (Demo.env true feed)
                   (fresh 0)
                   (snd (fetch_feed (Demo.env true feed) (fresh 0)))
                   feed eq_refl _)).
  discriminate.
Defined.

(** X13: the zero-processed check reads the counter of the instance, not of
    the run.  On an instance whose [contents] is already positive, a run over
    a non-empty batch that publishes nothing does not end with the
    "工作流终止" error: it reaches the report, and its last event is the
    partial-failure warning. *)
Theorem X13_stale_contents_reaches_report {W : Type} (env : Env W)
    (s s1 : State W) (data : list Candidate.t) :
  fetch_feed env s = (Ret data, s1) ->
  data <> [] ->
  Stats.contents (stats s) <> 0 ->
  publishResults (snd (process env s)) = [] ->
  let s' := snd (process env s) in
  exists evs,
    trace s'
    = trace s ++ evs
      ++ [Notify Warning "工作流完成(部分失败)"
            (summary_text (List.length (firstn 5 data)) (stats s') [])]
    /\ Stats.contents (stats s') = Stats.contents (stats s)
    /\ Stats.success (stats s') = Stats.success (stats s)
    /\ Stats.failed (stats s')
       = Stats.failed (stats s) + List.length (firstn 5 data).
Proof.
  intros F Hd Hc Hnil s'. subst s'.
  assert (Hne : firstn 5 data <> [])
    by (intros E; apply Hd, (proj1 (firstn_5_nil data) E)).
  destruct (fetch_feed_stats env s s1 _ F) as (Hs & evs1 & Ht & _).
  destruct (process_reaches_loop_end env s s1 data F Hne)
    as (segs & Hrun & Hp).
  rewrite Hp in Hnil |- *.
  destruct (after_loop_frame (List.length (firstn 5 data))
              (loop_end env data s1)) as (Hst & Hres & _).
  rewrite Hres in Hnil. rewrite Hst.
  pose proof (run_results _ _ _ _ Hrun) as R. cbn [publishResults app] in R.
  rewrite Hnil in R.
  pose proof (run_success _ _ _ _ Hrun) as R1.
  pose proof (run_contents _ _ _ _ Hrun) as R2.
  pose proof (run_failed _ _ _ _ Hrun) as R3.
  pose proof (run_trace _ _ _ _ Hrun) as R4.
  rewrite <- R in R1, R2, R3. cbn [stats trace List.length] in R1, R2, R3, R4.
  rewrite Hs in R1, R2, R3.
  assert (Hc2 : Stats.contents (stats (loop_end env data s1)) <> 0) by lia.
  rewrite (after_loop_report _ _ Hc2).
  destruct (report_spec (List.length (firstn 5 data)) (loop_end env data s1))
    as (ev & -> & _ & _ & Hwarn).
  cbn [snd trace]. rewrite Hnil in Hwarn.
  assert (Hev : ev = Notify Warning "工作流完成(部分失败)"
                       (summary_text (List.length (firstn 5 data))
                          (stats (loop_end env data s1)) [])).
  { apply Hwarn. intros (Hf & _).
    assert (List.length (firstn 5 data) <> 0).
    { destruct (firstn 5 data); [contradiction|discriminate]. }
    lia. }
  exists (evs1 ++ List.concat segs).
  rewrite Hev, R4, Ht, <- !app_assoc. repeat split; lia.
Qed.

Lemma X13_stale_contents_reaches_report_witness :
  let env := Demo.env true [Demo.empty] in
  let s := mkState 0 (Stats.mk 1 0 1) [] [] 0 in
  Stats.failed (stats (snd (process env s))) = 1.
Proof.
  intros env s.
  assert (Hd : [Demo.empty] <> []) by discriminate.
  assert (Hc : Stats.contents (stats s) <> 0) by discriminate.
  destruct (X13_stale_contents_reaches_report env s
              (snd (fetch_feed env s)) [Demo.empty] eq_refl Hd Hc eq_refl)
    as (evs & _ & _ & _ & Hf).
  exact Hf.
Defined.

(** ** Further properties: the workflow table of the scheduler *)

Lemma table_get_set_same {V : Type} (k : nat) (v : V) (m : list (nat * V)) :
  table_get k (table_set k v m) = Some v.
Proof.
  induction m as [|[k' v'] m IH]; cbn.
  - rewrite Nat.eqb_refl. reflexivity.
  - destruct (Nat.eqb k' k) eqn:E; cbn; rewrite E; [reflexivity|exact IH].
Qed.

Lemma table_get_set_other {V : Type} (k k' : nat) (v : V)
    (m : list (nat * V)) :
  k' <> k -> table_get k' (table_set k v m) = table_get k' m.
Proof.
  intros Hne. induction m as [|[k0 v0] m IH]; cbn.
  - destruct (Nat.eqb_spec k k'); [congruence|reflexivity].
  - destruct (Nat.eqb_spec k0 k) as [->|Hk]; cbn.
    + destruct (Nat.eqb_spec k k'); [congruence|reflexivity].
    + destruct (Nat.eqb k0 k'); [reflexivity|exact IH].
Qed.

(** X14: a tick runs on the instance of its own weekday only: the counters
    the table holds for every other day are the same after the tick. *)
Theorem X14_tick_touches_only_its_day {W : Type} (env : Env W)
    (dayOfWeek : nat) (sch : Scheduler W) (day : nat) :
  day <> adjustedDay dayOfWeek ->
  table_get day (workflowMap (cron_callback env dayOfWeek sch))
  = table_get day (workflowMap sch).
Proof.
  intros Hne. unfold cron_callback.
  destruct (table_get (adjustedDay dayOfWeek) (workflowMap sch));
    [|reflexivity].
  destruct (cron_tick env _) as [r s']. cbn [workflowMap].
  apply table_get_set_other. exact Hne.
Qed.

Lemma X14_tick_touches_only_its_day_witness :
  table_get 2
    (workflowMap
       (cron_callback (Demo.env true [Demo.good]) 1 (startCronJobs 0)))
  = Some Stats.initial.
Proof.
  refine (eq_trans
            (X14_tick_touches_only_its_day (Demo.env true [Demo.good]) 1
               (startCronJobs 0) 2 _) eq_refl).
  discriminate.
Defined.

(** The table holds an instance for each of the days 1 to 7. *)
Lemma table_complete_after_tick {W : Type} (env : Env W) (dayOfWeek : nat)
    (sch : Scheduler W) :
  (forall k, 1 <= k <= 7 -> table_get k (workflowMap sch) <> None) ->
  forall k, 1 <= k <= 7 ->
    table_get k (workflowMap (cron_callback env dayOfWeek sch)) <> None.
Proof.
  intros H k Hk. unfold cron_callback.
  destruct (table_get (adjustedDay dayOfWeek) (workflowMap sch));
    [|exact (H k Hk)].
  destruct (cron_tick env _) as [r s']. cbn [workflowMap].
  destruct (Nat.eq_dec k (adjustedDay dayOfWeek)) as [->|Hne].
  - rewrite table_get_set_same. discriminate.
  - rewrite (table_get_set_other _ _ _ _ Hne). exact (H k Hk).
Qed.

Lemma table_complete_at_start {W : Type} (w : W) (k : nat) :
  1 <= k <= 7 -> table_get k (workflowMap (startCronJobs w)) <> None.
Proof.
  intros Hk.
  assert (H : k = 1 \/ k = 2 \/ k = 3 \/ k = 4 \/ k = 5 \/ k = 6 \/ k = 7)
    by lia.
  destruct H as [->|[->|[->|[->|[->|[->| ->]]]]]]; discriminate.
Qed.

(** X15: after [startCronJobs], whatever ticks have run before, a tick on
    any weekday that [getDay] can return (0 for Sunday to 6) finds its
    instance in the table: the "no workflow configured" branch is never
    taken. *)
Theorem X15_every_weekday_has_an_instance {W : Type} (env : Env W) (w : W)
    (days : list nat) (dayOfWeek : nat) :
  dayOfWeek <= 6 ->
  exists instance,
    table_get (adjustedDay dayOfWeek)
      (workflowMap (run_ticks env days (startCronJobs w)))
    = Some instance.
Proof.
  intros Hd.
  assert (H : forall k, 1 <= k <= 7 ->
                table_get k
                  (workflowMap (run_ticks env days (startCronJobs w)))
                <> None).
  { unfold run_ticks.
    generalize (table_complete_at_start w).
    generalize (startCronJobs w).
    induction days as [|d days IH]; intros sch Hsch; [exact Hsch|].
    cbn [fold_left]. apply IH. apply table_complete_after_tick. exact Hsch. }
  specialize (H (adjustedDay dayOfWeek) (adjustedDay_in_table dayOfWeek Hd)).
  destruct (table_get (adjustedDay dayOfWeek) _) as [instance|];
    [exists instance; reflexivity|contradiction].
Qed.

Lemma X15_every_weekday_has_an_instance_witness :
  exists instance,
    table_get 7
      (workflowMap
         (run_ticks (Demo.env true [Demo.good]) [0; 3; 0] (startCronJobs 0)))
    = Some instance.
Proof.
  refine (X15_every_weekday_has_an_instance (Demo.env true [Demo.good]) 0
            [0; 3; 0] 0 _).
  lia.
Defined.

Lemma cron_tick_counters {W : Type} (env : Env W) (s : State W) :
  fst (cron_tick env s) = Ret tt
  /\ Stats.success (stats s) <= Stats.success (stats (snd (cron_tick env s)))
  /\ Stats.failed (stats s) <= Stats.failed (stats (snd (cron_tick env s)))
  /\ Stats.contents (stats s)
     <= Stats.contents (stats (snd (cron_tick env s))).
Proof.
  unfold cron_tick, try_catch, bind.
  pose proof (refresh_stats env s) as Hs.
  destruct (refresh env s) as [[[]|e] s1]; cbn [snd] in Hs.
  - destruct (process_counters env s1)
      as (published & handled & H1 & H2 & H3 & H4 & _).
    destruct (process env s1) as [[[]|e] s2]; cbn [fst snd ret] in *;
      rewrite <- Hs; repeat split; lia.
  - cbn [fst snd ret]. rewrite Hs. auto.
Qed.

(** X16: a tick stores the counters its run ends with as the instance of
    its weekday, so the next tick of that day starts from them; they are
    never lower than the ones the tick started from, and no error of the
    run leaves the callback. *)
Theorem X16_tick_keeps_the_counters_of_its_run {W : Type} (env : Env W)
    (dayOfWeek : nat) (sch : Scheduler W) (instance : Stats.t) :
  table_get (adjustedDay dayOfWeek) (workflowMap sch) = Some instance ->
  let run :=
    cron_tick env
      (mkState (sched_world sch) instance (sched_trace sch) [] 0) in
  let sch' := cron_callback env dayOfWeek sch in
  fst run = Ret tt
  /\ table_get (adjustedDay dayOfWeek) (workflowMap sch')
     = Some (stats (snd run))
  /\ sched_trace sch' = trace (snd run)
  /\ Stats.success instance <= Stats.success (stats (snd run))
  /\ Stats.failed instance <= Stats.failed (stats (snd run))
  /\ Stats.contents instance <= Stats.contents (stats (snd run)).
Proof.
  intros H run sch'.
  destruct (cron_tick_counters env
              (mkState (sched_world sch) instance (sched_trace sch) [] 0))
    as (Hr & H1 & H2 & H3).
  fold run in Hr, H1, H2, H3. cbn [stats] in H1, H2, H3.
  split; [exact Hr|].
  subst sch'. unfold cron_callback. rewrite H. fold run.
  destruct run as [r s']. cbn [workflowMap sched_trace snd] in *.
  rewrite table_get_set_same. auto.
Qed.

Lemma X16_tick_keeps_the_counters_of_its_run_witness :
  let env := Demo.env true [Demo.good; Demo.boom] in
  table_get 7
    (workflowMap (cron_callback env 0 (cron_callback env 0 (startCronJobs 0))))
  = Some (Stats.mk 2 2 2).
Proof.
  intros env.
  exact (proj1 (proj2
           (X16_tick_keeps_the_counters_of_its_run env 0
              (cron_callback env 0 (startCronJobs 0)) (Stats.mk 1 1 1)
              eq_refl))).
Defined.

(** ** Further properties: a batch whose adapters all answer *)

Lemma processContent_returns {W : Type} (env : Env W)
    (content : ScrapedContent.t) (s : State W) :
  exists content' s',
    processContent env content s = (Ret content', s')
    /\ stats s' = stats s
    /\ publishResults s' = publishResults s
    /\ processedCount s' = processedCount s.
Proof.
  unfold processContent; unfold_monad.
  destruct (summarize env (stringify env content) (world s)) as [[r|e] w1];
    simpl_state; do 2 eexists; repeat split.
Qed.

Section Answering.

Context {W : Type} (env : Env W).

Hypothesis cover_requested :
  forall prompt size w,
    exists taskId w', generateImage env prompt size w = (Ret taskId, w').
Hypothesis cover_completed :
  forall taskId w,
    exists res a u w',
      waitForCompletion env taskId w = (Ret res, w')
      /\ first_url res = Some (String a u).
Hypothesis cover_uploaded :
  forall imageUrl w,
    exists mediaId w', uploadImage env imageUrl w = (Ret mediaId, w').
Hypothesis rendered :
  forall articles w,
    exists template w', render env articles w = (Ret template, w').
Hypothesis published :
  forall template title digest mediaId w,
    exists r w', publish env template title digest mediaId w = (Ret r, w').

Lemma answering_item (sc : ContentScraper W) (item : Candidate.t)
    (s : State W) :
  (forall w, exists c cs w',
      scrape sc (Candidate.url item) w = (Ret (c :: cs), w')) ->
  exists s',
    loop_body env sc item s = (Ret tt, s')
    /\ Stats.success (stats s') = S (Stats.success (stats s))
    /\ Stats.failed (stats s') = Stats.failed (stats s)
    /\ Stats.contents (stats s') = S (Stats.contents (stats s))
    /\ List.length (publishResults s') = S (List.length (publishResults s)).
Proof.
  intros Hscrape.
  destruct (Hscrape (world s)) as (c & cs & w1 & E1).
  set (st1 := mkState w1 (stats s)
                (trace s ++ [Scrape (Candidate.url item) (Ret (c :: cs))])
                (publishResults s) (processedCount s)).
  destruct (processContent_returns env c st1) as (c' & st2 & E2 & F1 & F2 & F3).
  set (title := WeixinTemplate.title (article_of c')).
  destruct (cover_requested (cover_prompt title) "1440*768" (world st2))
    as (taskId & w3 & E3).
  destruct (cover_completed taskId w3) as (res & a & u & w4 & E4 & Eu).
  destruct (cover_uploaded (String a u) w4) as (mediaId & w5 & E5).
  destruct (rendered [article_of c'] w5) as (template & w6 & E6).
  destruct (published template title title mediaId w6) as (r & w7 & E7).
  assert (Hne : String a u <> ""%string) by discriminate.
  pose proof (render_and_publish_publishes env c' st2 taskId (String a u)
                mediaId template res r w3 w4 w5 w6 w7 E3 E4 Eu Hne E5 E6 E7)
    as Hpub.
  eexists. split.
  - unfold loop_body, try_catch, item_try, bind, call. rewrite E1.
    fold st1. cbn [after_scrape]. unfold bind. rewrite E2, Hpub.
    unfold incr_processedCount. simpl_state. reflexivity.
  - simpl_state. rewrite F1, F2. subst st1. simpl_state.
    rewrite length_app. cbn. repeat split; lia.
Qed.

Lemma answering_loop (sc : ContentScraper W) (batch : list Candidate.t) :
  (forall item w, In item batch ->
     exists c cs w', scrape sc (Candidate.url item) w = (Ret (c :: cs), w')) ->
  forall s,
  exists s',
    for_of batch (loop_body env sc) s = (Ret tt, s')
    /\ Stats.success (stats s')
       = Stats.success (stats s) + List.length batch
    /\ Stats.failed (stats s') = Stats.failed (stats s)
    /\ Stats.contents (stats s')
       = Stats.contents (stats s) + List.length batch
    /\ List.length (publishResults s')
       = List.length (publishResults s) + List.length batch.
Proof.
  induction batch as [|item batch IH]; intros Hscrape s.
  - exists s. cbn. repeat split; lia.
  - destruct (answering_item sc item s) as (s1 & E1 & A1 & A2 & A3 & A4).
    { intros w. apply Hscrape. left. reflexivity. }
    destruct (IH (fun i w Hi => Hscrape i w (or_intror Hi)) s1)
      as (s2 & E2 & B1 & B2 & B3 & B4).
    exists s2. split.
    + cbn [for_of]. unfold bind. rewrite E1. exact E2.
    + cbn [List.length]. repeat split; lia.
Qed.

(** X17: when the scraper finds content for every candidate of the capped
    batch and the image generator, the renderer and the publisher always
    answer, every candidate is published, whether or not the summarizer
    works: the run returns, [success] and [contents] grow by the size of the
    batch, [failed] stays, and there is one publish result per candidate. *)
Theorem X17_all_published_when_adapters_answer (s s1 : State W)
    (data : list Candidate.t) :
  (forall item w, In item (firstn 5 data) ->
     exists c cs w',
       scrape (fireCrawl env) (Candidate.url item) w = (Ret (c :: cs), w')) ->
  fetch_feed env s = (Ret data, s1) ->
  data <> [] ->
  let s' := snd (process env s) in
  let n := List.length (firstn 5 data) in
  fst (process env s) = Ret tt
  /\ Stats.success (stats s') = Stats.success (stats s) + n
  /\ Stats.failed (stats s') = Stats.failed (stats s)
  /\ Stats.contents (stats s') = Stats.contents (stats s) + n
  /\ List.length (publishResults s') = n.
Proof.
  intros Hscrape F Hd s' n. subst s' n.
  assert (Hne : firstn 5 data <> [])
    by (intros E; apply Hd, (proj1 (firstn_5_nil data) E)).
  destruct (fetch_feed_stats env s s1 _ F) as (Hs & _).
  destruct (process_nonempty env s s1 data F Hne)
    as (s2 & segs & E2 & _ & Hp).
  destruct (answering_loop (fireCrawl env) (firstn 5 data) Hscrape
              (mkState (world s1) (stats s1) (trace s1) [] 0))
    as (s3 & E3 & A1 & A2 & A3 & A4).
  rewrite E2 in E3. inversion E3; subst s3; clear E3.
  rewrite Hp, after_loop_returns.
  destruct (after_loop_frame (List.length (firstn 5 data)) s2)
    as (-> & -> & _).
  cbn [stats publishResults List.length] in A1, A2, A3, A4.
  rewrite <- Hs. repeat split; lia.
Qed.

End Answering.

Lemma X17_all_published_when_adapters_answer_witness :
  let env := Demo.env false [Demo.good; Demo.good] in
  Stats.success (stats (snd (process env (fresh 0)))) = 2.
Proof.
  intros env.
  refine (proj1 (proj2
            (X17_all_published_when_adapters_answer env _ _ _ _ _
               (fresh 0) (snd (fetch_feed env (fresh 0)))
               [Demo.good; Demo.good] _ eq_refl _))).
  - intros; do 2 eexists; reflexivity.
  - intros; do 4 eexists; split; reflexivity.
  - intros; do 2 eexists; reflexivity.
  - intros; do 2 eexists; reflexivity.
  - intros; do 2 eexists; reflexivity.
  - intros item w [<-|[<-|[]]]; do 3 eexists; reflexivity.
  - discriminate.
Defined.
